(** * STLVault: the 3D model viewer and the upload flow

    A shallow embedding of [components/Viewer3D.tsx] (the [Model],
    [Viewer3D] and [ErrorBoundary] components) and of [handleUpload] in
    the [App] component, together with the properties the specification
    states about them.

    Conventions of the embedding:
    - JavaScript numbers that carry coordinates are exact rationals
      ([Q]); equality of coordinates is [Qeq], so "within floating-point
      tolerance" reads as equality in exact arithmetic.  Lengths of
      vectors need a square root and are real numbers.
    - The calls into three.js ([STLLoader], [computeVertexNormals],
      [center], [computeBoundingBox]) follow what the library does for
      the geometries the loader builds.
    - React state is explicit: one render pass is a function from the
      props, the outcome of evaluating [<Model>] and the current state to
      the next state, the view and the list of observable calls.
    - Objects shared by reference (the geometry cached by [useLoader],
      callback functions) are referred to by identity; geometries live in
      a heap that the layout effect updates in place. *)

From Stdlib Require Import QArith Qminmax Lqa Lia List String Ascii Bool ZArith NArith.
From Stdlib Require Reals Qreals Lra.
From stdpp Require Import base option list strings gmap.
Import ListNotations.

(* ===================================================================== *)
(** * Geometry: the part of three.js the [Model] component calls          *)
(* ===================================================================== *)

Module Geometry.

Open Scope Q_scope.

(** [THREE.Vector3]. *)
Record Vector3 : Type := V3 { vx : Q; vy : Q; vz : Q }.

Definition vzero : Vector3 := V3 0 0 0.
Definition vadd (a b : Vector3) : Vector3 := V3 (vx a + vx b) (vy a + vy b) (vz a + vz b).
Definition vsub (a b : Vector3) : Vector3 := V3 (vx a - vx b) (vy a - vy b) (vz a - vz b).
Definition vneg (a : Vector3) : Vector3 := V3 (- vx a) (- vy a) (- vz a).
Definition vscale (k : Q) (a : Vector3) : Vector3 := V3 (k * vx a) (k * vy a) (k * vz a).
Definition vmin (a b : Vector3) : Vector3 := V3 (Qmin (vx a) (vx b)) (Qmin (vy a) (vy b)) (Qmin (vz a) (vz b)).
Definition vmax (a b : Vector3) : Vector3 := V3 (Qmax (vx a) (vx b)) (Qmax (vy a) (vy b)) (Qmax (vz a) (vz b)).

(** Equality of vectors, component by component, in exact arithmetic. *)
Definition veq (a b : Vector3) : Prop :=
  vx a == vx b /\ vy a == vy b /\ vz a == vz b.

(** [THREE.Box3]: the axis-aligned bounding box.  three.js keeps the box
    of no points as [min = +Infinity, max = -Infinity]; here it is its own
    constructor. *)
Inductive Box3 : Type :=
| EmptyBox
| Box (bmin bmax : Vector3).

Definition beq (a b : Box3) : Prop :=
  match a, b with
  | EmptyBox, EmptyBox => True
  | Box lo hi, Box lo' hi' => veq lo lo' /\ veq hi hi'
  | _, _ => False
  end.

Definition expandByPoint (b : Box3) (p : Vector3) : Box3 :=
  match b with
  | EmptyBox => Box p p
  | Box lo hi => Box (vmin lo p) (vmax hi p)
  end.

Definition expandAll (b : Box3) (ps : list Vector3) : Box3 :=
  fold_left expandByPoint ps b.

(** Modelled from the spec: [Box3.setFromBufferAttribute] is three.js code,
    not part of the repository.  "The smallest axis-aligned box containing
    all geometry": the componentwise minimum and maximum of the vertex
    positions. *)
Definition setFromPoints (ps : list Vector3) : Box3 := expandAll EmptyBox ps.

(** Modelled from the spec: [Box3.getCenter] is three.js code.  "The
    box's center" is the midpoint of the two corners.  The specification
    does not say what the centre of the box of no points is; three.js
    answers with the origin, and so does this definition. *)
Definition getCenter (b : Box3) : Vector3 :=
  match b with
  | EmptyBox => vzero
  | Box lo hi => vscale (1 # 2) (vadd lo hi)
  end.

(** Modelled from the spec: [Box3.getSize] is three.js code.
    "BoundingSize: derived vector = max - min".  For the box of no
    points, about which the specification is silent, three.js answers
    with the zero vector, and so does this definition. *)
Definition getSize (b : Box3) : Vector3 :=
  match b with
  | EmptyBox => vzero
  | Box lo hi => vsub hi lo
  end.

Definition translateBox (t : Vector3) (b : Box3) : Box3 :=
  match b with
  | EmptyBox => EmptyBox
  | Box lo hi => Box (vadd t lo) (vadd t hi)
  end.

(** [THREE.BufferGeometry] as [STLLoader] builds it: not indexed, every
    three consecutive entries of [position] are one triangle.  [normal] is
    the optional per-vertex normal attribute, [boundingBox] is [null]
    until somebody computes it. *)
Record BufferGeometry : Type := mkGeometry {
  position : list Vector3;
  normal : option (list Vector3);
  boundingBox : option Box3
}.

Definition triangleCount (g : BufferGeometry) : nat := (length (position g) / 3)%nat.

(** Identity of a callback function object (React compares hook
    dependencies with [Object.is]). *)
Definition Callback : Type := nat.

(** What the layout effect of [Model] does that is visible from outside:
    the calls into three.js, in the order it makes them, and the call of
    the [onLoaded] prop. *)
Inductive Event : Type :=
| EvComputeVertexNormals
| EvCenter
| EvComputeBoundingBox
| EvOnLoaded (cb : Callback) (size : Vector3).

(** The effect mutates one geometry object and makes calls: a state
    monad over the geometry with a log of the calls. *)
Definition Eff (A : Type) : Type := BufferGeometry -> A * BufferGeometry * list Event.

#[export] Instance eff_ret : MRet Eff := fun A (a : A) g => (a, g, []).

#[export] Instance eff_bind : MBind Eff := fun A B (k : A -> Eff B) (m : Eff A) g =>
  let '(a, g1, l1) := m g in
  let '(b, g2, l2) := k a g1 in
  (b, g2, l1 ++ l2).

Definition emit (e : Event) : Eff unit := fun g => (tt, g, [e]).
Definition update (f : BufferGeometry -> BufferGeometry) : Eff unit := fun g => (tt, f g, []).
Definition readBoundingBox : Eff (option Box3) := fun g => (boundingBox g, g, []).

Section Normalizer.

(** [BufferGeometry.computeVertexNormals] is three.js code that is not
    part of the repository; the function from the vertex positions to the
    normals it stores is taken as a parameter. *)
Variable vertexNormals : list Vector3 -> list Vector3.

Definition setNormals (g : BufferGeometry) : BufferGeometry :=
  mkGeometry (position g) (Some (vertexNormals (position g))) (boundingBox g).

(** Modelled from the spec: [BufferGeometry.center] is three.js code.
    "Compute the bounding box of all vertex positions first, then
    translate every vertex by the negative of the box's center": the
    translation it applies. *)
Definition centerOffset (g : BufferGeometry) : Vector3 :=
  vneg (getCenter (setFromPoints (position g))).

(** Modelled from the spec: [BufferGeometry.translate] is three.js code.
    "Translate every vertex". *)
Definition translate (t : Vector3) (g : BufferGeometry) : BufferGeometry :=
  mkGeometry (map (vadd t) (position g)) (normal g) (boundingBox g).

(** Modelled from the spec: the geometry [BufferGeometry.center] leaves
    behind, the vertices translated "by the negative of the box's
    center". *)
Definition centered (g : BufferGeometry) : BufferGeometry :=
  translate (centerOffset g) g.

(** Modelled from the spec: [BufferGeometry.computeBoundingBox] is
    three.js code.  It stores the box of the current vertex positions. *)
Definition withBoundingBox (g : BufferGeometry) : BufferGeometry :=
  mkGeometry (position g) (normal g) (Some (setFromPoints (position g))).

Definition computeVertexNormals : Eff unit := emit EvComputeVertexNormals ;; update setNormals.
Definition center : Eff unit := emit EvCenter ;; update centered.
Definition computeBoundingBox : Eff unit := emit EvComputeBoundingBox ;; update withBoundingBox.

(** The body of the [useLayoutEffect] callback of [Model], under its
    guard [if (geometry)] (Viewer3D.tsx, lines 20-28). *)
Definition layoutEffect (onLoaded : option Callback) : Eff unit :=
  computeVertexNormals ;;
  center ;;
  computeBoundingBox ;;
  bb ← readBoundingBox ;
  match bb, onLoaded with
  | Some box, Some cb =>
      let size := getSize box in
      emit (EvOnLoaded cb size)
  | _, _ => mret tt
  end.

(** The geometry the effect leaves behind and the calls it made. *)
Definition normalize (onLoaded : option Callback) (g : BufferGeometry)
  : BufferGeometry * list Event :=
  let '(_, g', log) := layoutEffect onLoaded g in (g', log).

End Normalizer.

(** The scenario of the specification: one triangle with the vertices
    (0,0,0), (1,0,0), (0,1,0), as the loader hands it over. *)
Definition unitTriangle : BufferGeometry :=
  mkGeometry [V3 0 0 0; V3 1 0 0; V3 0 1 0] (Some [V3 0 0 1; V3 0 0 1; V3 0 0 1]) None.

(** The same triangle moved so that its bounding box is centred on the
    origin. *)
Definition centredTriangle : BufferGeometry :=
  mkGeometry [V3 (-1 # 2) (-1 # 2) 0; V3 (1 # 2) (-1 # 2) 0; V3 (-1 # 2) (1 # 2) 0]
    None None.

(** A geometry with no triangle at all. *)
Definition emptyGeometry : BufferGeometry := mkGeometry [] (Some []) None.

End Geometry.

(* ===================================================================== *)
(** * The vertex normals three.js computes                                *)
(* ===================================================================== *)

Module Normals.

Import Geometry.
Import Stdlib.Reals.Reals Stdlib.Reals.Qreals.













End Normals.

(* ===================================================================== *)
(** * The viewer: [Model], [ErrorBoundary] and [Viewer3D]                 *)
(* ===================================================================== *)

Module Viewer.

Import Geometry.

(** A reference to a geometry object.  [useLoader] caches what it loads,
    so the same reference is handed out on every render that asks for the
    same URL. *)
Definition GRef : Type := nat.

(** [Viewer3DProps] as [Viewer3D] uses them.  A JavaScript caller may
    leave [url] out; [None] stands for [undefined]. *)
Record Props : Type := mkProps {
  url : option string;
  onLoaded : option Callback
}.

(** [!url] *)
Definition noUrl (u : option string) : bool :=
  match u with
  | None => true
  | Some s => String.eqb s EmptyString
  end.

(** What evaluating [<Model url=... />] does in one render pass: the
    loader has not settled yet and the component suspends, an exception
    is thrown (the load failed, or rendering failed), or [useLoader]
    returns the geometry. *)
Inductive Outcome : Type :=
| Suspends
| Throws
| Returns (r : GRef).

(** Calls that can be observed from outside the component tree. *)
Inductive Call : Type :=
| UseLoader (u : string)
| InEffect (e : Event)
| ConsoleError
| OnError.

(** What is on screen inside the [Canvas]. *)
Inductive CanvasContent : Type :=
| LoadingFallback
| Nothing
| Mesh (r : GRef).

(** What [Viewer3D] returns. *)
Inductive View : Type :=
| NoModelSelected
| ErrorLoadingModel
| Canvas (content : CanvasContent).

(** [useState(false)] twice in [Viewer3D]. *)
Record Viewer3DState : Type := mkViewerState {
  error : bool;
  isFullscreen : bool
}.

(** The state of the [ErrorBoundary] class component. *)
Record ErrorBoundaryState : Type := mkBoundaryState { hasError : bool }.

(** One mounted [Viewer3D] with what is mounted below it: the boundary
    (when the canvas is on screen), the dependencies the layout effect
    of [Model] last ran with (when [Model] is mounted), and the heap of
    geometry objects. *)
Record Session : Type := mkSession {
  viewer : Viewer3DState;
  boundary : option ErrorBoundaryState;
  effectDeps : option (GRef * option Callback);
  heap : gmap nat BufferGeometry
}.

(** A [Viewer3D] that has just been mounted. *)
Definition mount (h : gmap nat BufferGeometry) : Session :=
  mkSession (mkViewerState false false) None None h.

Definition setError (b : bool) (s : Session) : Session :=
  mkSession (mkViewerState b (isFullscreen (viewer s))) (boundary s) (effectDeps s) (heap s).

Definition setIsFullscreen (b : bool) (s : Session) : Session :=
  mkSession (mkViewerState (error (viewer s)) b) (boundary s) (effectDeps s) (heap s).

Definition setBoundary (b : option ErrorBoundaryState) (s : Session) : Session :=
  mkSession (viewer s) b (effectDeps s) (heap s).

Definition setEffectDeps (d : option (GRef * option Callback)) (s : Session) : Session :=
  mkSession (viewer s) (boundary s) d (heap s).

Definition setHeap (h : gmap nat BufferGeometry) (s : Session) : Session :=
  mkSession (viewer s) (boundary s) (effectDeps s) h.

(** The canvas leaves the screen: the boundary and the model unmount. *)
Definition unmountCanvas (s : Session) : Session :=
  setEffectDeps None (setBoundary None s).

(** [constructor]: [this.state = { hasError: false }] *)
Definition ErrorBoundary_constructor : ErrorBoundaryState := mkBoundaryState false.

(** [static getDerivedStateFromError()] *)
Definition getDerivedStateFromError : ErrorBoundaryState := mkBoundaryState true.

(** [componentDidCatch(error)]: logs, then calls [this.props.onError()].
    [Viewer3D] passes [() => setError(true)] as [onError]. *)
Definition componentDidCatch (s : Session) : Session * list Call :=
  (setError true s, [ConsoleError; OnError]).

(** [ErrorBoundary.render]: are the children rendered? *)
Definition ErrorBoundary_render (b : ErrorBoundaryState) : bool :=
  if hasError b then false else true.

(** What rendering a component comes to: content, or an exception that
    travels up to the nearest boundary. *)
Inductive Rendered : Type :=
| Shown (content : CanvasContent)
| Thrown.

Section WithNormals.

Variable vertexNormals : list Vector3 -> list Vector3.

(** The [useLayoutEffect] callback of [Model], run on the geometry that
    [r] refers to; [if (geometry)] is the lookup. *)
Definition runLayoutEffect (r : GRef) (cb : option Callback)
    (h : gmap nat BufferGeometry) : gmap nat BufferGeometry * list Event :=
  match h !! r with
  | Some g =>
      let '(g', log) := normalize vertexNormals cb g in
      (<[r := g']> h, log)
  | None => (h, [])
  end.

(** [Model]: [useLoader], then [useLayoutEffect(..., [geometry,
    onLoaded])], then the [<mesh>] element.  React runs the effect after
    the first commit and after every commit in which one of the
    dependencies is not the same object as before.  While the loader is
    pending the [Suspense] above shows its fallback and [Model] is not
    committed. *)
Definition Model (u : string) (cb : option Callback) (o : Outcome) (s : Session)
  : Session * Rendered * list Call :=
  match o with
  | Suspends => (setEffectDeps None s, Shown LoadingFallback, [UseLoader u])
  | Throws => (setEffectDeps None s, Thrown, [UseLoader u])
  | Returns r =>
      if bool_decide (effectDeps s = Some (r, cb)) then
        (s, Shown (Mesh r), [UseLoader u])
      else
        let '(h', log) := runLayoutEffect r cb (heap s) in
        (setEffectDeps (Some (r, cb)) (setHeap h' s), Shown (Mesh r),
         UseLoader u :: map InEffect log)
  end.

(** [ErrorBoundary] around its children: it renders them unless it has
    caught an error before; when they throw it takes the state of
    [getDerivedStateFromError], renders nothing and runs
    [componentDidCatch]. *)
Definition ErrorBoundary (children : Session -> Session * Rendered * list Call)
    (s : Session) : Session * CanvasContent * list Call :=
  let b := default ErrorBoundary_constructor (boundary s) in
  let s1 := setBoundary (Some b) s in
  if ErrorBoundary_render b then
    match children s1 with
    | (s2, Shown content, calls) => (s2, content, calls)
    | (s2, Thrown, calls) =>
        let s3 := setBoundary (Some getDerivedStateFromError) s2 in
        let '(s4, calls') := componentDidCatch s3 in
        (s4, Nothing, calls ++ calls')
    end
  else (setEffectDeps None s1, Nothing, []).

(** One render of [Viewer3D] with the given props, down to the commit. *)
Definition Viewer3D (p : Props) (o : Outcome) (s : Session)
  : Session * View * list Call :=
  if noUrl (url p) then (unmountCanvas s, NoModelSelected, [])
  else if error (viewer s) then (unmountCanvas s, ErrorLoadingModel, [])
  else
    let '(s', content, calls) :=
      ErrorBoundary (Model (default EmptyString (url p)) (onLoaded p) o) s in
    (s', Canvas content, calls).

(** What can happen to a mounted viewer: React renders it (new props, a
    state change, the loader settling), or the document reports a
    fullscreen change. *)
Inductive Input : Type :=
| Render (p : Props) (o : Outcome)
| FullscreenChange (on : bool).

Definition step (s : Session) (i : Input) : Session * option View * list Call :=
  match i with
  | Render p o => let '(s', v, calls) := Viewer3D p o s in (s', Some v, calls)
  | FullscreenChange on => (setIsFullscreen on s, None, [])
  end.

Definition next (s : Session) (i : Input) : Session := fst (fst (step s i)).

(** A run: the state it ends in, the views returned and all calls, each
    in order. *)
Fixpoint run (s : Session) (inputs : list Input)
  : Session * list View * list Call :=
  match inputs with
  | [] => (s, [], [])
  | i :: rest =>
      let '(s', v, calls) := step s i in
      let '(final, views, calls') := run s' rest in
      (final, from_option (fun x => [x]) [] v ++ views, calls ++ calls')
  end.

Definition finalState (s : Session) (inputs : list Input) : Session :=
  fst (fst (run s inputs)).

Definition viewsOf (s : Session) (inputs : list Input) : list View :=
  snd (fst (run s inputs)).

Definition callsOf (s : Session) (inputs : list Input) : list Call :=
  snd (run s inputs).

(** How often the viewer goes from "no error" to "error" along a run. *)
Fixpoint errorTransitions (s : Session) (inputs : list Input) : nat :=
  match inputs with
  | [] => 0
  | i :: rest =>
      let s' := next s i in
      (if negb (error (viewer s)) && error (viewer s') then 1 else 0)
      + errorTransitions s' rest
  end.

End WithNormals.

Definition isOnError (c : Call) : bool :=
  match c with OnError => true | _ => false end.

Definition isOnLoaded (c : Call) : bool :=
  match c with InEffect (EvOnLoaded _ _) => true | _ => false end.

Definition countCalls (f : Call -> bool) (calls : list Call) : nat :=
  length (filter (fun c => f c = true) calls).

(** The flag of the boundary and the flag of the viewer agree: a boundary
    that has caught an error has told the viewer. *)
Definition consistent (s : Session) : Prop :=
  match boundary s with
  | Some b => hasError b = true -> error (viewer s) = true
  | None => True
  end.

(** An input that leaves the load as it is: the same props and the same
    geometry object from the loader, or a fullscreen change. *)
Definition sameLoad (p : Props) (r : GRef) (i : Input) : Prop :=
  match i with
  | Render p' o => p' = p /\ o = Returns r
  | FullscreenChange _ => True
  end.

(** An input that renders the viewer without a URL, or does not render. *)
Definition withoutUrl (i : Input) : Prop :=
  match i with
  | Render p _ => noUrl (url p) = true
  | FullscreenChange _ => True
  end.

End Viewer.

(* ===================================================================== *)
(** * The canvas of [Viewer3D] and where its boundary stands              *)
(* ===================================================================== *)

Module CanvasTree.

Import Geometry Viewer.

(** The components [Viewer3D] puts inside [<Canvas>], lines 74 to 84. *)
Inductive Component : Type :=
| SuspenseTag
| StageTag
| CenterTag
| ErrorBoundaryTag
| ModelTag
| GridTag
| OrbitControlsTag.

#[global] Instance Component_eq_dec : EqDecision Component.
Proof. solve_decision. Defined.

#[local] Unset Elimination Schemes.
Inductive Element : Type :=
| El (c : Component) (children : list Element).
#[local] Set Elimination Schemes.

(** The JSX of lines 74 to 84: [Suspense] holds [Stage], [Grid] and
    [OrbitControls]; [Stage] holds [Center], which holds the boundary,
    which holds [Model]. *)
Definition canvasContent : Element :=
  El SuspenseTag
    [ El StageTag [ El CenterTag [ El ErrorBoundaryTag [ El ModelTag [] ] ] ];
      El GridTag [];
      El OrbitControlsTag [] ].

Definition isBoundary (c : Component) : bool :=
  match c with ErrorBoundaryTag => true | _ => false end.

(** The components in the order React renders them, parents before
    children and siblings left to right, each with whether an
    [ErrorBoundary] stands above it.  A boundary catches what is thrown
    below it, not what it throws itself. *)
Fixpoint renderOrder (guarded : bool) (e : Element) : list (Component * bool) :=
  match e with
  | El c children =>
      (c, guarded) :: flat_map (renderOrder (guarded || isBoundary c)) children
  end.

(** Is an exception thrown while [c] renders handed to the boundary? *)
Definition guardedBy (c : Component) : bool :=
  existsb (fun x => bool_decide (fst x = c) && snd x) (renderOrder false canvasContent).

(** Has [a] been rendered when [b] is reached? *)
Fixpoint rendersBefore (a b : Component) (order : list Component) : bool :=
  match order with
  | [] => false
  | c :: rest =>
      if bool_decide (c = b) then false
      else if bool_decide (c = a) then true
      else rendersBefore a b rest
  end.

(** What a render pass of [Viewer3D] ends in: a commit, or, when an
    exception reaches no boundary, React taking the whole tree down
    ([Viewer3D] has no boundary around [<Canvas>], and the canvas hands
    what its content throws to the tree that holds it). *)
Inductive Pass : Type :=
| Committed (s : Session) (v : View)
| Unmounted.

Section WithNormals.

Variable vertexNormals : list Vector3 -> list Vector3.

(** One render pass of [Viewer3D] in which the component [thrower], if
    any, throws while it renders.  Without a URL or in the error state
    the canvas is not rendered and nothing in it can throw.  What is
    thrown below the boundary is what [Model] throws.  What is thrown
    elsewhere ends the pass before its commit: no effect and no
    [componentDidCatch] runs, and only the calls of the render functions
    reached so far have been made. *)
Definition renderPass (thrower : option Component) (p : Props) (o : Outcome)
    (s : Session) : Pass * list Call :=
  let commit (o' : Outcome) :=
    let '(s', v, calls) := Viewer3D vertexNormals p o' s in (Committed s' v, calls) in
  match thrower with
  | None => commit o
  | Some c =>
      if noUrl (url p) then commit o
      else if error (viewer s) then commit o
      else if guardedBy c then commit Throws
      else
        (Unmounted,
         if rendersBefore ModelTag c (map fst (renderOrder false canvasContent))
         then [UseLoader (default EmptyString (url p))]
         else [])
  end.

End WithNormals.

End CanvasTree.

(* ===================================================================== *)
(** * The upload flow: [handleUpload] of the [App] component             *)
(* ===================================================================== *)

Module Upload.

(** A [File] of the browser: its name and an opaque handle on its bytes. *)
Record File : Type := mkFile { name : string; handle : nat }.

Record Folder : Type := mkFolder { id : string }.

(** How an awaited promise settles. *)
Inductive Settled (A : Type) : Type :=
| Fulfilled (a : A)
| Rejected.
Arguments Fulfilled {A} a.
Arguments Rejected {A}.

(** [String.prototype.toLowerCase], on the ASCII letters. *)
Definition lowerAscii (c : ascii) : ascii :=
  let n := nat_of_ascii c in
  if (65 <=? n)%nat && (n <=? 90)%nat then ascii_of_nat (n + 32) else c.

Fixpoint toLowerCase (s : string) : string :=
  match s with
  | EmptyString => EmptyString
  | String c rest => String (lowerAscii c) (toLowerCase rest)
  end.

(** [String.prototype.endsWith] *)
Definition endsWith (s suffix : string) : bool :=
  let n := String.length s in
  let m := String.length suffix in
  if (m <=? n)%nat then String.eqb (substring (n - m) m s) suffix else false.

(** [file.name.toLowerCase().endsWith('.stl')] *)
Definition isStl (f : File) : bool := endsWith (toLowerCase (name f)) ".stl".

Section WithServices.

(** The record the API answers an upload with. *)
Variable STLModel : Type.

(** [generateThumbnail] of [services/thumbnailGenerator] and
    [api.uploadModel] of [services/api]: how each call settles. *)
Variable generateThumbnail : File -> Settled string.
Variable uploadModel : File -> string -> option string -> Settled STLModel.

(** The state of [App] that [handleUpload] reads and writes. *)
Record AppState : Type := mkApp {
  folders : list Folder;
  models : list STLModel;
  currentFolderId : string;
  uploadQueue : Z
}.

(** What [handleUpload] does that is visible outside [App]. *)
Inductive Effect : Type :=
| CallGenerateThumbnail (f : File)
| ConsoleWarn
| CallUploadModel (f : File) (folderId : string) (thumbnail : option string)
| ConsoleError (fileName : string).

Definition setModels (f : list STLModel -> list STLModel) (st : AppState) : AppState :=
  mkApp (folders st) (f (models st)) (currentFolderId st) (uploadQueue st).

Definition setUploadQueue (f : Z -> Z) (st : AppState) : AppState :=
  mkApp (folders st) (models st) (currentFolderId st) (f (uploadQueue st)).

(** [currentFolderId === 'all' && folders.length > 0 ? folders[0].id :
    currentFolderId], with the [folders] and [currentFolderId] of the
    render that created the handler. *)
Definition targetFolderId (st : AppState) : string :=
  match folders st with
  | first :: _ => if String.eqb (currentFolderId st) "all" then id first else currentFolderId st
  | [] => currentFolderId st
  end.

(** The inner [try]/[catch] around [generateThumbnail]. *)
Definition thumbnailFor (f : File) : option string * list Effect :=
  if isStl f then
    match generateThumbnail f with
    | Fulfilled t => (Some t, [CallGenerateThumbnail f])
    | Rejected => (None, [CallGenerateThumbnail f; ConsoleWarn])
    end
  else (None, []).

(** The body of the [for] loop: the outer [try]/[catch]/[finally]. *)
Definition uploadOne (target : string) (f : File) (st : AppState)
  : AppState * list Effect :=
  let '(thumbnail, log1) := thumbnailFor f in
  let '(st1, log2) :=
    match uploadModel f target thumbnail with
    | Fulfilled newModel =>
        (setModels (fun prev => newModel :: prev) st,
         [CallUploadModel f target thumbnail])
    | Rejected =>
        (st, [CallUploadModel f target thumbnail; ConsoleError (name f)])
    end in
  (setUploadQueue (fun prev => prev - 1)%Z st1, log1 ++ log2).

Fixpoint uploadAll (target : string) (files : list File) (st : AppState)
  : AppState * list Effect :=
  match files with
  | [] => (st, [])
  | f :: rest =>
      let '(st1, log1) := uploadOne target f st in
      let '(st2, log2) := uploadAll target rest st1 in
      (st2, log1 ++ log2)
  end.

Definition handleUpload (files : list File) (st : AppState) : AppState * list Effect :=
  let st0 := setUploadQueue (fun prev => prev + Z.of_nat (length files))%Z st in
  uploadAll (targetFolderId st) files st0.

(** The uploads issued, in order. *)
Fixpoint uploadsIn (log : list Effect) : list (File * string * option string) :=
  match log with
  | [] => []
  | CallUploadModel f t th :: rest => (f, t, th) :: uploadsIn rest
  | _ :: rest => uploadsIn rest
  end.

End WithServices.

End Upload.

(* ===================================================================== *)
(** * The mesh decoder                                                    *)
(* ===================================================================== *)

Module MeshDecoder.

Import Stdlib.Init.Byte.
Open Scope N_scope.

(** A 32-bit float of the file, kept as its bit pattern. *)
Definition Float32 : Type := N.

Record Vec3f : Type := mkVec3f { fx : Float32; fy : Float32; fz : Float32 }.

(** The facet normal and the three vertices of one face of the file. *)
Record Triangle : Type := mkTriangle {
  facetNormal : Vec3f;
  vertexA : Vec3f;
  vertexB : Vec3f;
  vertexC : Vec3f
}.

(** What a [DataView] throws when it is asked to read past the end of
    its buffer. *)
Inductive DecodeError : Type := RangeError.

(** The layout of a binary file: an 80-byte header, a 32-bit
    little-endian face count ([dataOffset = 84]), then 50 bytes per face
    ([faceLength = 12 * 4 + 2]: the normal and three vertices, twelve
    floats, and a 16-bit attribute). *)
Definition HEADER_BYTES : nat := 80.
Definition COUNT_BYTES : nat := 4.
Definition RECORD_BYTES : nat := 50.

(** Little-endian unsigned integer. *)
Fixpoint littleEndian (bs : list byte) : N :=
  match bs with
  | [] => 0
  | b :: rest => Byte.to_N b + 256 * littleEndian rest
  end.

(** [reader.getFloat32(start + off, true)] within one face. *)
Definition float32At (off : nat) (rec : list byte) : Float32 :=
  littleEndian (firstn 4 (skipn off rec)).

Definition vec3At (off : nat) (rec : list byte) : Vec3f :=
  mkVec3f (float32At off rec) (float32At (off + 4) rec) (float32At (off + 8) rec).

Definition triangleOfRecord (rec : list byte) : Triangle :=
  mkTriangle (vec3At 0 rec) (vec3At 12 rec) (vec3At 24 rec) (vec3At 36 rec).

Fixpoint records (n : nat) (bs : list byte) : list (list byte) :=
  match n with
  | O => []
  | S k => firstn RECORD_BYTES bs :: records k (skipn RECORD_BYTES bs)
  end.

(** [reader.getUint32(80, true)] *)
Definition declaredCount (buf : list byte) : N :=
  littleEndian (firstn COUNT_BYTES (skipn HEADER_BYTES buf)).

(** Modelled from the spec: [parseBinary] of [STLLoader] is three.js
    code, not part of the repository.  "80-byte header, 32-bit
    little-endian triangle count, then 50 bytes per triangle"; one face
    after the other is read, as many as the count field says; a read
    past the end of the buffer throws, and then no geometry is returned
    ("rather than returning partial data").  Bytes behind the last face
    are not looked at.  (A colour that the header or the attributes may
    carry does not change the triangles and is left out.) *)
Definition parseBinary (buf : list byte) : DecodeError + list Triangle :=
  let n := declaredCount buf in
  if N.of_nat (HEADER_BYTES + COUNT_BYTES) + N.of_nat RECORD_BYTES * n
       <=? N.of_nat (length buf)
  then inr (map triangleOfRecord
              (records (N.to_nat n) (skipn (HEADER_BYTES + COUNT_BYTES) buf)))
  else inl RangeError.

(** The bytes of the word "solid". *)
Definition solid : list byte := [x73; x6f; x6c; x69; x64].

(** [matchDataViewAt(query, reader, offset)] of [STLLoader]; it is called
    on buffers that have the bytes it looks at. *)
Fixpoint matchDataViewAt (query buf : list byte) (off : nat) : bool :=
  match query with
  | [] => true
  | q :: rest =>
      match nth_error buf off with
      | Some b => if Byte.eqb q b then matchDataViewAt rest buf (S off) else false
      | None => false
      end
  end.

(** The test for a text file: the word "solid" at one of the offsets 0
    to 4. *)
Definition matchesSolid (buf : list byte) : bool :=
  existsb (matchDataViewAt solid buf) (seq 0 5).

Section Loader.

(** The test that tells a text file, and the parser of text files. *)
Variable looksLikeText : list byte -> bool.
Variable parseASCII : list byte -> DecodeError + list Triangle.

(** Modelled from the spec: [isBinary] of [STLLoader] is three.js code.
    Reading the count field throws on a buffer that has no room for it;
    a buffer whose length is exactly what the count asks for is binary;
    any other buffer is binary unless it looks like text. *)
Definition isBinary (buf : list byte) : DecodeError + bool :=
  let len := N.of_nat (length buf) in
  if len <? N.of_nat (HEADER_BYTES + COUNT_BYTES) then inl RangeError
  else if len =? N.of_nat (HEADER_BYTES + COUNT_BYTES)
                 + N.of_nat RECORD_BYTES * declaredCount buf
  then inr true
  else inr (negb (looksLikeText buf)).

(** Modelled from the spec: the decoder is [STLLoader.parse] of
    three.js, which [Model] reaches through [useLoader(STLLoader, url)]
    at line 16; its code is not in the repository.  It is
    [isBinary(data) ? parseBinary(data) : parseASCII(data)].  Where the
    specification asks for a failure that the loader does not raise (a
    count of zero, bytes behind the last face, a text file), the
    definition follows the loader. *)
Definition decode (buf : list byte) : DecodeError + list Triangle :=
  match isBinary buf with
  | inl e => inl e
  | inr true => parseBinary buf
  | inr false => parseASCII buf
  end.

End Loader.

(** ** Writing a binary file *)

Definition byteOf (n : N) : byte := default x00 (Byte.of_N (n mod 256)).

(** The [k] low bytes of [n], lowest first. *)
Fixpoint bytesLE (k : nat) (n : N) : list byte :=
  match k with
  | O => []
  | S k' => byteOf n :: bytesLE k' (n / 256)
  end.

Definition vec3Bytes (v : Vec3f) : list byte :=
  bytesLE 4 (fx v) ++ bytesLE 4 (fy v) ++ bytesLE 4 (fz v).

(** One face of the file: the triangle and its 16-bit attribute. *)
Definition recordOf (face : Triangle * N) : list byte :=
  vec3Bytes (facetNormal (fst face)) ++ vec3Bytes (vertexA (fst face))
  ++ vec3Bytes (vertexB (fst face)) ++ vec3Bytes (vertexC (fst face))
  ++ bytesLE 2 (snd face).


(** A binary file with the given header and faces. *)
Definition encode (header : list byte) (faces : list (Triangle * N)) : list byte :=
  header ++ bytesLE 4 (N.of_nat (length faces)) ++ concat (map recordOf faces).

Definition isFloat32 (x : Float32) : Prop := x < 2 ^ 32.

Definition validVec3f (v : Vec3f) : Prop :=
  isFloat32 (fx v) /\ isFloat32 (fy v) /\ isFloat32 (fz v).

Definition validTriangle (t : Triangle) : Prop :=
  validVec3f (facetNormal t) /\ validVec3f (vertexA t) /\
  validVec3f (vertexB t) /\ validVec3f (vertexC t).

(** A header of 80 bytes, a number of faces that fits the count field,
    and floats of 32 bits. *)
Definition wellFormed (header : list byte) (faces : list (Triangle * N)) : Prop :=
  length header = HEADER_BYTES /\
  N.of_nat (length faces) < 2 ^ 32 /\
  Forall (fun face => validTriangle (fst face)) faces.

End MeshDecoder.

(* ===================================================================== *)
(** * The library of [App]: folders, models and their handlers            *)
(* ===================================================================== *)

Module Library.

(** A JavaScript value, as far as the handlers look into one. *)
Inductive JsValue : Type :=
| JsString (s : string)
| JsNumber (n : Z)
| JsBool (b : bool)
| JsNull
| JsUndefined.

#[export] Instance JsValue_eq_dec : EqDecision JsValue.
Proof. solve_decision. Defined.

(** [Folder] and [STLModel] are declared in [./types], which is not part
    of the sources at hand: they are JavaScript objects, finite maps from
    property names to values.  A property that is not there reads as
    [undefined]. *)
Abbreviation JsObject := (gmap string JsValue).

(** [o.key === s] for a string [s]. *)
Definition propIs (o : JsObject) (key s : string) : bool :=
  bool_decide (o !! key = Some (JsString s)).

(** What [await] yields: the value, or the thrown thing, of which the
    handlers only ask whether it is an [Error] with a message. *)
Inductive Thrown : Type :=
| ErrorWithMessage (message : string)
| OtherThrown.

Inductive Outcome (A : Type) : Type :=
| Resolved (a : A)
| RejectedWith (e : Thrown).
Arguments Resolved {A} a.
Arguments RejectedWith {A} e.

(** The [useState] cells of [App]. *)
Record State : Type := mkState {
  folders : list JsObject;
  models : list JsObject;
  currentFolderId : string;
  selectedModelId : option string;
  isLoading : bool;
  uploadQueue : Z
}.

(** [App] as it is first rendered. *)
Definition initial : State := mkState [] [] "all" None false 0.

Definition setFolders (f : list JsObject -> list JsObject) (st : State) : State :=
  mkState (f (folders st)) (models st) (currentFolderId st) (selectedModelId st)
    (isLoading st) (uploadQueue st).

Definition setModels (f : list JsObject -> list JsObject) (st : State) : State :=
  mkState (folders st) (f (models st)) (currentFolderId st) (selectedModelId st)
    (isLoading st) (uploadQueue st).

Definition setCurrentFolderId (id : string) (st : State) : State :=
  mkState (folders st) (models st) id (selectedModelId st) (isLoading st) (uploadQueue st).

Definition setSelectedModelId (id : option string) (st : State) : State :=
  mkState (folders st) (models st) (currentFolderId st) id (isLoading st) (uploadQueue st).

Definition setIsLoading (b : bool) (st : State) : State :=
  mkState (folders st) (models st) (currentFolderId st) (selectedModelId st) b
    (uploadQueue st).

(** What a handler does that is visible outside [App]. *)
Inductive Effect : Type :=
| ApiGetFolders
| ApiGetModels (folderId : string)
| ApiCreateFolder (name : string)
| ApiUpdateFolder (id newName : string)
| ApiDeleteFolder (id : string)
| ApiUpdateModel (id : string) (updates : JsObject)
| ApiDeleteModel (id : string)
| Alert (message : string)
| Confirm (message : string)
| ConsoleError (message : string).

(** The effect of the first render: [fetchData].  Both requests are
    started; [Promise.all] resolves when both do. *)
Definition fetchData (fetchedFolders fetchedModels : Outcome (list JsObject))
    (st : State) : State * list Effect :=
  let st1 := setIsLoading true st in
  let '(st2, log) :=
    match fetchedFolders, fetchedModels with
    | Resolved fs, Resolved ms =>
        (setModels (fun _ => ms) (setFolders (fun _ => fs) st1), [])
    | _, _ => (st1, [ConsoleError "Failed to fetch initial data:"])
    end in
  (setIsLoading false st2, [ApiGetFolders; ApiGetModels "all"] ++ log).

(** [filteredModels], computed in every render. *)
Definition filteredModels (st : State) : list JsObject :=
  if String.eqb (currentFolderId st) "all" then models st
  else List.filter (fun m => propIs m "folderId" (currentFolderId st)) (models st).

(** [m.id === selectedModelId], where [selectedModelId] may be [null]. *)
Definition idMatches (sel : option string) (m : JsObject) : bool :=
  match sel with
  | Some s => propIs m "id" s
  | None => bool_decide (m !! "id" = Some JsNull)
  end.

(** [selectedModel]: [models.find(...) || null]. *)
Definition selectedModel (st : State) : option JsObject :=
  List.find (idMatches (selectedModelId st)) (models st).

Definition handleCreateFolder (created : Outcome JsObject) (name : string)
    (st : State) : State * list Effect :=
  match created with
  | Resolved newFolder =>
      (setFolders (fun prev => prev ++ [newFolder]) st, [ApiCreateFolder name])
  | RejectedWith _ =>
      (st, [ApiCreateFolder name; ConsoleError "Failed to create folder:"])
  end.

Definition handleRenameFolder (updated : Outcome unit) (id newName : string)
    (st : State) : State * list Effect :=
  match updated with
  | Resolved _ =>
      (setFolders
         (fun prev => map (fun f => if propIs f "id" id
                                    then <["name" := JsString newName]> f
                                    else f) prev) st,
       [ApiUpdateFolder id newName])
  | RejectedWith _ =>
      (st, [ApiUpdateFolder id newName; ConsoleError "Failed to rename folder"])
  end.

Definition confirmDeleteFolder : string := "Are you sure you want to delete this folder?".
Definition confirmDeleteModel : string := "Are you sure you want to delete this model?".

(** [handleDeleteFolder].  [seen] is the state of the render that created
    the handler ([models] and [currentFolderId] are read from it), [st]
    the state the updates are applied to; [confirmed] is what
    [window.confirm] answers. *)
Definition handleDeleteFolder (seen : State) (confirmed : bool)
    (deleted : Outcome unit) (id : string) (st : State) : State * list Effect :=
  let hasModels := existsb (fun m => propIs m "folderId" id) (models seen) in
  if hasModels then (st, [Alert "Folder must be empty to delete."])
  else if negb confirmed then (st, [Confirm confirmDeleteFolder])
  else
    match deleted with
    | Resolved _ =>
        let st1 := setFolders (fun prev => List.filter (fun f => negb (propIs f "id" id)) prev) st in
        let st2 := if String.eqb (currentFolderId seen) id
                   then setCurrentFolderId "all" st1 else st1 in
        (st2, [Confirm confirmDeleteFolder; ApiDeleteFolder id])
    | RejectedWith e =>
        (st, [Confirm confirmDeleteFolder; ApiDeleteFolder id;
              ConsoleError "Failed to delete folder";
              Alert match e with
                    | ErrorWithMessage message => message
                    | OtherThrown => "Failed to delete folder"
                    end])
    end.

(** [handleUpdateModel]: the list is updated first, then the API is
    called; a failure is logged and nothing is taken back. *)
Definition handleUpdateModel (updated : Outcome unit) (id : string)
    (updates : JsObject) (st : State) : State * list Effect :=
  let st1 := setModels
               (fun prev => map (fun m => if propIs m "id" id then updates ∪ m else m) prev)
               st in
  match updated with
  | Resolved _ => (st1, [ApiUpdateModel id updates])
  | RejectedWith _ =>
      (st1, [ApiUpdateModel id updates; ConsoleError "Failed to update model:"])
  end.

(** [handleDeleteModel]; [selectedModelId] is read from [seen]. *)
Definition handleDeleteModel (seen : State) (confirmed : bool)
    (deleted : Outcome unit) (id : string) (st : State) : State * list Effect :=
  if negb confirmed then (st, [Confirm confirmDeleteModel])
  else
    match deleted with
    | Resolved _ =>
        let st1 := setModels (fun prev => List.filter (fun m => negb (propIs m "id" id)) prev) st in
        let st2 := if bool_decide (selectedModelId seen = Some id)
                   then setSelectedModelId None st1 else st1 in
        (st2, [Confirm confirmDeleteModel; ApiDeleteModel id])
    | RejectedWith _ =>
        (st, [Confirm confirmDeleteModel; ApiDeleteModel id;
              ConsoleError "Failed to delete model:"])
    end.

(** [onSelectFolder] of the sidebar. *)
Definition onSelectFolder (id : string) (st : State) : State :=
  setSelectedModelId None (setCurrentFolderId id st).

(** What the user can do to the library, with how the API and the
    confirmation dialog answer. *)
Inductive Action : Type :=
| CreateFolder (created : Outcome JsObject) (name : string)
| RenameFolder (updated : Outcome unit) (id newName : string)
| DeleteFolder (confirmed : bool) (deleted : Outcome unit) (id : string)
| SelectFolder (id : string)
| UpdateModel (updated : Outcome unit) (id : string) (updates : JsObject)
| DeleteModel (confirmed : bool) (deleted : Outcome unit) (id : string).

(** One action, run to its end before anything else happens: the
    handler sees the state it updates. *)
Definition perform (st : State) (a : Action) : State * list Effect :=
  match a with
  | CreateFolder created name => handleCreateFolder created name st
  | RenameFolder updated id newName => handleRenameFolder updated id newName st
  | DeleteFolder confirmed deleted id => handleDeleteFolder st confirmed deleted id st
  | SelectFolder id => (onSelectFolder id st, [])
  | UpdateModel updated id updates => handleUpdateModel updated id updates st
  | DeleteModel confirmed deleted id => handleDeleteModel st confirmed deleted id st
  end.

Definition performAll (st : State) (actions : list Action) : State :=
  fold_left (fun s a => fst (perform s a)) actions st.

(** The folder that is shown exists: it is "all" or the id of a folder. *)
Definition currentFolderExists (st : State) : Prop :=
  currentFolderId st = "all" \/
  Exists (fun f => propIs f "id" (currentFolderId st) = true) (folders st).

(** The sidebar offers "all" and the folders there are: a selection is
    of one of these. *)
Fixpoint selectsExisting (st : State) (actions : list Action) : Prop :=
  match actions with
  | [] => True
  | a :: rest =>
      match a with
      | SelectFolder id =>
          id = "all" \/ Exists (fun f => propIs f "id" id = true) (folders st)
      | _ => True
      end /\ selectsExisting (fst (perform st a)) rest
  end.

End Library.

(* ===================================================================== *)
(** * Reading actions on the library                                      *)
(* ===================================================================== *)

Module LibraryLog.

Import Library.

Definition isRejected {A} (o : Outcome A) : bool :=
  match o with Resolved _ => false | RejectedWith _ => true end.

(** The action comes to nothing: the user declined it, or the API
    refused it. *)
Definition comesToNothing (a : Action) : bool :=
  match a with
  | CreateFolder created _ => isRejected created
  | RenameFolder updated _ _ => isRejected updated
  | DeleteFolder confirmed deleted _ => negb confirmed || isRejected deleted
  | SelectFolder _ => false
  | UpdateModel updated _ _ => isRejected updated
  | DeleteModel confirmed deleted _ => negb confirmed || isRejected deleted
  end.

Definition isUpdateModel (a : Action) : bool :=
  match a with UpdateModel _ _ _ => true | _ => false end.

(** The same action with the API call going through. *)
Definition goingThrough (a : Action) : Action :=
  match a with
  | UpdateModel _ id updates => UpdateModel (Resolved tt) id updates
  | _ => a
  end.

(** Two folders and three models for the examples. *)
Definition partsFolder : JsObject :=
  {[ "id"%string := JsString "f1"; "name"%string := JsString "Parts" ]}.
Definition toysFolder : JsObject :=
  {[ "id"%string := JsString "f2"; "name"%string := JsString "Toys" ]}.
Definition gear : JsObject :=
  {[ "id"%string := JsString "m1"; "folderId"%string := JsString "f1";
     "name"%string := JsString "gear.stl" ]}.
Definition bracket : JsObject :=
  {[ "id"%string := JsString "m2"; "folderId"%string := JsString "f1";
     "name"%string := JsString "bracket.stl" ]}.
Definition duck : JsObject :=
  {[ "id"%string := JsString "m3"; "folderId"%string := JsString "f2";
     "name"%string := JsString "duck.stl" ]}.

Definition sampleLibrary : State :=
  mkState [partsFolder; toysFolder] [gear; bracket; duck] "f1" (Some "m2"%string) false 0.

End LibraryLog.

(* ===================================================================== *)
(** * Reading a run of the viewer                                         *)
(* ===================================================================== *)

Module ViewerLog.

Import Geometry Viewer.

(** The flag of the last fullscreen change among the inputs; [b] when
    there is none. *)
Definition lastFullscreen (b : bool) (inputs : list Input) : bool :=
  fold_left (fun flag i => match i with
                           | FullscreenChange on => on
                           | Render _ _ => flag
                           end) inputs b.

(** A render with a URL in which the loader returns a geometry and
    there is a callback to tell the size to. *)
Definition canReport (i : Input) : bool :=
  match i with
  | Render p (Returns _) =>
      match onLoaded p with
      | Some _ => negb (noUrl (url p))
      | None => false
      end
  | _ => false
  end.

(** A render in which the loader returns the geometry [r]. *)
Definition returnsGeometry (r : GRef) (i : Input) : Prop :=
  match i with
  | Render _ (Returns r') => r' = r
  | _ => False
  end.

(** An input while the loader is pending for the props [p]: a render
    that suspends, or a fullscreen change. *)
Definition pendingLoad (p : Props) (i : Input) : Prop :=
  match i with
  | Render p' o => p' = p /\ o = Suspends
  | FullscreenChange _ => True
  end.

(** The size the effect reported, if it reported one. *)
Fixpoint reportedSize (log : list Event) : option Vector3 :=
  match log with
  | [] => None
  | EvOnLoaded _ size :: _ => Some size
  | _ :: rest => reportedSize rest
  end.

End ViewerLog.

(* ===================================================================== *)
(** * Reading the log of an upload                                        *)
(* ===================================================================== *)

Module UploadLog.

Import Upload.

(** The files a thumbnail was asked for, in order. *)
Fixpoint thumbnailsAskedIn (log : list Effect) : list File :=
  match log with
  | [] => []
  | CallGenerateThumbnail f :: rest => f :: thumbnailsAskedIn rest
  | _ :: rest => thumbnailsAskedIn rest
  end.

(** The names the failed uploads were logged with, in order. *)
Fixpoint errorsIn (log : list Effect) : list string :=
  match log with
  | [] => []
  | ConsoleError n :: rest => n :: errorsIn rest
  | _ :: rest => errorsIn rest
  end.

(** How many warnings about a thumbnail there are. *)
Fixpoint warningsIn (log : list Effect) : nat :=
  match log with
  | [] => 0
  | ConsoleWarn :: rest => S (warningsIn rest)
  | _ :: rest => warningsIn rest
  end.

Definition isFulfilled {A} (s : Settled A) : bool :=
  match s with Fulfilled _ => true | Rejected => false end.

Definition fulfilled {A} (s : Settled A) : list A :=
  match s with Fulfilled a => [a] | Rejected => [] end.

End UploadLog.

(* ===================================================================== *)
(** * Facts about the geometry                                            *)
(* ===================================================================== *)

Section GeometryFacts.

Import Geometry.
Open Scope Q_scope.

Lemma veq_refl (a : Vector3) : veq a a.
Proof. repeat split; reflexivity. Qed.

Lemma veq_trans (a b c : Vector3) : veq a b -> veq b c -> veq a c.
Proof.
  intros (Hx & Hy & Hz) (Hx' & Hy' & Hz').
  repeat split; etransitivity; eassumption.
Qed.

Lemma vmin_translate (t lo lo' p : Vector3) :
  veq lo' (vadd t lo) -> veq (vmin lo' (vadd t p)) (vadd t (vmin lo p)).
Proof.
  intros (Hx & Hy & Hz). unfold veq, vmin, vadd in *. simpl in *.
  repeat split.
  - rewrite Hx. apply Q.plus_min_distr_l.
  - rewrite Hy. apply Q.plus_min_distr_l.
  - rewrite Hz. apply Q.plus_min_distr_l.
Qed.

Lemma vmax_translate (t hi hi' p : Vector3) :
  veq hi' (vadd t hi) -> veq (vmax hi' (vadd t p)) (vadd t (vmax hi p)).
Proof.
  intros (Hx & Hy & Hz). unfold veq, vmax, vadd in *. simpl in *.
  repeat split.
  - rewrite Hx. apply Q.plus_max_distr_l.
  - rewrite Hy. apply Q.plus_max_distr_l.
  - rewrite Hz. apply Q.plus_max_distr_l.
Qed.

(** Growing a translated box by a translated point is the translation of
    growing the box by the point. *)
Lemma expandByPoint_translate (t p : Vector3) (b b' : Box3) :
  beq b' (translateBox t b) ->
  beq (expandByPoint b' (vadd t p)) (translateBox t (expandByPoint b p)).
Proof.
  destruct b as [|lo hi], b' as [|lo' hi']; simpl; try contradiction.
  - intros _. split; apply veq_refl.
  - intros [Hlo Hhi]. split.
    + apply vmin_translate, Hlo.
    + apply vmax_translate, Hhi.
Qed.

Lemma expandAll_translate (t : Vector3) (ps : list Vector3) :
  forall b b', beq b' (translateBox t b) ->
    beq (expandAll b' (map (vadd t) ps)) (translateBox t (expandAll b ps)).
Proof.
  induction ps as [|p ps IH]; intros b b' Hb; simpl.
  - exact Hb.
  - apply IH. apply expandByPoint_translate, Hb.
Qed.

(** The bounding box moves with the vertices. *)
Lemma setFromPoints_translate (t : Vector3) (ps : list Vector3) :
  beq (setFromPoints (map (vadd t) ps)) (translateBox t (setFromPoints ps)).
Proof. apply expandAll_translate. simpl. exact I. Qed.

Lemma getCenter_beq (a b : Box3) : beq a b -> veq (getCenter a) (getCenter b).
Proof.
  destruct a as [|lo hi], b as [|lo' hi']; simpl; try contradiction.
  - intros _. apply veq_refl.
  - intros [(Hx & Hy & Hz) (Hx' & Hy' & Hz')].
    unfold veq, vscale, vadd. simpl.
    repeat split;
      [rewrite Hx, Hx' | rewrite Hy, Hy' | rewrite Hz, Hz']; reflexivity.
Qed.

Lemma getSize_beq (a b : Box3) : beq a b -> veq (getSize a) (getSize b).
Proof.
  destruct a as [|lo hi], b as [|lo' hi']; simpl; try contradiction.
  - intros _. apply veq_refl.
  - intros [(Hx & Hy & Hz) (Hx' & Hy' & Hz')].
    unfold veq, vsub. simpl.
    repeat split;
      [rewrite Hx, Hx' | rewrite Hy, Hy' | rewrite Hz, Hz']; reflexivity.
Qed.

(** Translating a box by minus its centre puts the centre at the origin. *)
Lemma getCenter_recentred (b : Box3) :
  veq (getCenter (translateBox (vneg (getCenter b)) b)) vzero.
Proof.
  destruct b as [|lo hi]; simpl.
  - apply veq_refl.
  - unfold veq, vscale, vadd, vneg, vzero. cbn [vx vy vz]. repeat split; lra.
Qed.

(** The size of a box does not change under translation. *)
Lemma getSize_translate (t : Vector3) (b : Box3) :
  veq (getSize (translateBox t b)) (getSize b).
Proof.
  destruct b as [|lo hi]; simpl.
  - apply veq_refl.
  - unfold veq, vsub, vadd. cbn [vx vy vz]. repeat split; lra.
Qed.

Variable vertexNormals : list Vector3 -> list Vector3.

(** After [center] the bounding box of the vertices is centred on the
    origin. *)
Lemma centered_at_origin (g : BufferGeometry) :
  veq (getCenter (setFromPoints (position (centered g)))) vzero.
Proof.
  unfold centered, translate, centerOffset. simpl.
  eapply veq_trans.
  - apply getCenter_beq, setFromPoints_translate.
  - apply getCenter_recentred.
Qed.

(** The layout effect, unfolded: what it leaves in the geometry and the
    calls it makes, for a geometry with or without normals and with or
    without a callback. *)
Lemma normalize_unfold (cb : option Callback) (g : BufferGeometry) :
  normalize vertexNormals cb g =
  (withBoundingBox (centered (setNormals vertexNormals g)),
   [EvComputeVertexNormals; EvCenter; EvComputeBoundingBox] ++
   match cb with
   | Some f => [EvOnLoaded f (getSize (setFromPoints (position (centered g))))]
   | None => []
   end).
Proof. destruct cb; reflexivity. Qed.

(** The size that is reported is the size the box had before the
    vertices were moved: the size does not depend on the translation. *)
Lemma reported_size_unchanged (g : BufferGeometry) :
  veq (getSize (setFromPoints (position (centered g))))
      (getSize (setFromPoints (position g))).
Proof.
  unfold centered, translate. cbn [position].
  eapply veq_trans.
  - apply getSize_beq, setFromPoints_translate.
  - apply getSize_translate.
Qed.

End GeometryFacts.

(* ===================================================================== *)
(** * Facts about the vertex normals                                      *)
(* ===================================================================== *)

Section NormalsFacts.

Import Geometry Normals.
Import Stdlib.Reals.Reals Stdlib.Reals.Qreals Stdlib.micromega.Lra.


















End NormalsFacts.

(* ===================================================================== *)
(** * Facts about the viewer                                              *)
(* ===================================================================== *)

Section ViewerFacts.

Import Geometry Viewer.

Variable vertexNormals : list Vector3 -> list Vector3.

Lemma normalize_pair (cb : option Callback) (g : BufferGeometry) :
  normalize vertexNormals cb g =
  (fst (normalize vertexNormals cb g), snd (normalize vertexNormals cb g)).
Proof. destruct (normalize vertexNormals cb g); reflexivity. Qed.

(** The first render of a freshly mounted viewer in which the loader
    returns a geometry: the canvas shows the mesh and the layout effect
    runs once on the geometry. *)
Lemma Viewer3D_first_load (h : gmap nat BufferGeometry) (r : GRef)
    (g : BufferGeometry) (u : string) (cb : option Callback) :
  h !! r = Some g ->
  noUrl (Some u) = false ->
  Viewer3D vertexNormals (mkProps (Some u) cb) (Returns r) (mount h) =
  (mkSession (mkViewerState false false) (Some (mkBoundaryState false))
     (Some (r, cb)) (<[r := fst (normalize vertexNormals cb g)]> h),
   Canvas (Mesh r),
   UseLoader u :: map InEffect (snd (normalize vertexNormals cb g))).
Proof.
  intros Hg Hu. unfold Viewer3D. cbn [url onLoaded]. rewrite Hu.
  cbn. unfold runLayoutEffect. cbn. rewrite Hg.
  rewrite (normalize_pair cb g). reflexivity.
Qed.

(** ** Runs *)

Abbreviation step := (Viewer.step vertexNormals).
Abbreviation next := (Viewer.next vertexNormals).
Abbreviation run := (Viewer.run vertexNormals).
Abbreviation finalState := (Viewer.finalState vertexNormals).
Abbreviation viewsOf := (Viewer.viewsOf vertexNormals).
Abbreviation callsOf := (Viewer.callsOf vertexNormals).
Abbreviation errorTransitions := (Viewer.errorTransitions vertexNormals).

Lemma finalState_nil (s : Session) : finalState s [] = s.
Proof. reflexivity. Qed.

Lemma callsOf_nil (s : Session) : callsOf s [] = [].
Proof. reflexivity. Qed.

Lemma finalState_cons (s : Session) (i : Input) (rest : list Input) :
  finalState s (i :: rest) = finalState (next s i) rest.
Proof.
  unfold Viewer.finalState, Viewer.next. simpl.
  destruct (step s i) as [[s' v] c]. simpl.
  destruct (run s' rest) as [[f vs] cs]. reflexivity.
Qed.

Lemma callsOf_cons (s : Session) (i : Input) (rest : list Input) :
  callsOf s (i :: rest) = snd (step s i) ++ callsOf (next s i) rest.
Proof.
  unfold Viewer.callsOf, Viewer.next. simpl.
  destruct (step s i) as [[s' v] c]. simpl.
  destruct (run s' rest) as [[f vs] cs]. reflexivity.
Qed.

Lemma viewsOf_cons (s : Session) (i : Input) (rest : list Input) :
  viewsOf s (i :: rest) =
  from_option (fun x => [x]) [] (snd (fst (step s i))) ++ viewsOf (next s i) rest.
Proof.
  unfold Viewer.viewsOf, Viewer.next. simpl.
  destruct (step s i) as [[s' v] c]. simpl.
  destruct (run s' rest) as [[f vs] cs]. reflexivity.
Qed.

Lemma finalState_app (a b : list Input) :
  forall s, finalState s (a ++ b) = finalState (finalState s a) b.
Proof.
  induction a as [|i a IH]; intros s.
  - reflexivity.
  - rewrite <- app_comm_cons, !finalState_cons. apply IH.
Qed.

Lemma countCalls_app (f : Call -> bool) (a b : list Call) :
  countCalls f (a ++ b) = (countCalls f a + countCalls f b)%nat.
Proof. unfold countCalls. rewrite filter_app, length_app. reflexivity. Qed.

Lemma countCalls_InEffect_onError (log : list Event) :
  countCalls isOnError (map InEffect log) = 0%nat.
Proof. induction log as [|e log IH]; [reflexivity | exact IH]. Qed.

(** A session as it usually goes: the loader is pending, then returns
    the geometry; later renders and a fullscreen change do not run the
    effect again. *)
Example usual_session :
  let p := mkProps (Some "cube.stl"%string) (Some 7%nat) in
  let inputs := [Render p Suspends; Render p (Returns 0%nat);
                 FullscreenChange true; Render p (Returns 0%nat)] in
  let s0 := mount {[ 0%nat := unitTriangle ]} in
  Viewer.viewsOf (fun ps => ps) s0 inputs
    = [Canvas LoadingFallback; Canvas (Mesh 0%nat); Canvas (Mesh 0%nat)] /\
  countCalls isOnLoaded (Viewer.callsOf (fun ps => ps) s0 inputs) = 1%nat /\
  countCalls isOnError (Viewer.callsOf (fun ps => ps) s0 inputs) = 0%nat /\
  isFullscreen (viewer (Viewer.finalState (fun ps => ps) s0 inputs)) = true.
Proof. cbv zeta. repeat split; reflexivity. Qed.

(** ** Once in error *)

Lemma Viewer3D_in_error (p : Props) (o : Outcome) (s : Session) :
  error (viewer s) = true ->
  Viewer3D vertexNormals p o s =
  (unmountCanvas s,
   if noUrl (url p) then NoModelSelected else ErrorLoadingModel,
   []).
Proof.
  intros He. unfold Viewer3D. destruct (noUrl (url p)); [reflexivity|].
  rewrite He. reflexivity.
Qed.

Lemma step_in_error (s : Session) (i : Input) :
  error (viewer s) = true ->
  error (viewer (next s i)) = true /\ snd (step s i) = [].
Proof.
  intros He. unfold Viewer.next. destruct i as [p o|on]; simpl.
  - rewrite (Viewer3D_in_error p o s He). simpl. auto.
  - auto.
Qed.

Lemma run_in_error (inputs : list Input) :
  forall s, error (viewer s) = true ->
    error (viewer (finalState s inputs)) = true /\
    callsOf s inputs = [] /\
    errorTransitions s inputs = 0%nat.
Proof.
  induction inputs as [|i rest IH]; intros s He.
  - auto.
  - destruct (step_in_error s i He) as [He' Hc].
    destruct (IH _ He') as (Hf & Hcs & Ht).
    rewrite finalState_cons, callsOf_cons, Hc, Hcs.
    cbn [Viewer.errorTransitions]. rewrite He, Ht. auto.
Qed.

Lemma views_in_error (inputs : list Input) :
  forall s, error (viewer s) = true ->
    Forall (fun v => v = ErrorLoadingModel \/ v = NoModelSelected) (viewsOf s inputs).
Proof.
  induction inputs as [|i rest IH]; intros s He.
  - constructor.
  - rewrite viewsOf_cons. apply Forall_app. split.
    + destruct i as [p o|on]; simpl.
      * rewrite (Viewer3D_in_error p o s He). simpl.
        constructor; [|constructor]. destruct (noUrl (url p)); auto.
      * constructor.
    + apply IH. apply step_in_error, He.
Qed.

(** ** Before any error *)

Lemma consistent_mount (h : gmap nat BufferGeometry) : consistent (mount h).
Proof. exact I. Qed.

Lemma boundary_of_consistent (s : Session) :
  error (viewer s) = false ->
  consistent s ->
  default ErrorBoundary_constructor (boundary s) = mkBoundaryState false.
Proof.
  intros He Hc. unfold consistent in Hc.
  destruct (boundary s) as [[[|]]|]; try reflexivity.
  rewrite (Hc eq_refl) in He. discriminate He.
Qed.

(** A render of a viewer that has a URL and is not in error: the
    boundary renders [Model], and catches what it throws. *)
Lemma Viewer3D_live (p : Props) (o : Outcome) (s : Session) :
  noUrl (url p) = false ->
  error (viewer s) = false ->
  consistent s ->
  Viewer3D vertexNormals p o s =
  match Model vertexNormals (default EmptyString (url p)) (onLoaded p) o
          (setBoundary (Some (mkBoundaryState false)) s) with
  | (s2, Shown content, calls) => (s2, Canvas content, calls)
  | (s2, Thrown, calls) =>
      (setError true (setBoundary (Some getDerivedStateFromError) s2),
       Canvas Nothing, calls ++ [ConsoleError; OnError])
  end.
Proof.
  intros Hu He Hc. unfold Viewer3D, ErrorBoundary.
  rewrite Hu, He, (boundary_of_consistent s He Hc). cbn.
  destruct (Model vertexNormals (default EmptyString (url p)) (onLoaded p) o
              (setBoundary (Some (mkBoundaryState false)) s)) as [[s2 [c|]] calls];
    reflexivity.
Qed.

(** One input from a state without error: either no error and no call
    of [onError], or the error flag is set and [onError] was called
    once. *)
Lemma step_without_error (s : Session) (i : Input) :
  error (viewer s) = false ->
  consistent s ->
  consistent (next s i) /\
  ((error (viewer (next s i)) = false /\
    countCalls isOnError (snd (step s i)) = 0%nat) \/
   (error (viewer (next s i)) = true /\
    countCalls isOnError (snd (step s i)) = 1%nat)).
Proof.
  intros He Hc. unfold Viewer.next.
  destruct s as [[e f] b d h]. simpl in He. subst e.
  destruct i as [p o|on]; simpl.
  - unfold Viewer3D. destruct (noUrl (url p)); simpl.
    { split; [exact I | left; auto]. }
    assert (Hb : default ErrorBoundary_constructor b = mkBoundaryState false).
    { destruct b as [[[|]]|]; try reflexivity.
      unfold consistent in Hc. simpl in Hc. discriminate (Hc eq_refl). }
    unfold ErrorBoundary. cbn [boundary]. rewrite Hb. cbn.
    destruct o as [| |r]; cbn.
    + split; [intros H; discriminate H | left; auto].
    + split; [intros _; reflexivity | right; auto].
    + destruct (bool_decide (d = Some (r, onLoaded p))); cbn.
      { split; [intros H; discriminate H | left; auto]. }
      destruct (runLayoutEffect vertexNormals r (onLoaded p) h) as [h' log]. cbn.
      split; [intros H; discriminate H | left]. split; [reflexivity|].
      apply (countCalls_InEffect_onError log).
  - split; [exact Hc | left; auto].
Qed.

(** Over a whole run, [onError] is called as often as the viewer enters
    the error state, and that is once if the run ends in error and never
    otherwise. *)
Lemma run_onError_count (inputs : list Input) :
  forall s, error (viewer s) = false -> consistent s ->
    let n := if error (viewer (finalState s inputs)) then 1%nat else 0%nat in
    countCalls isOnError (callsOf s inputs) = n /\
    errorTransitions s inputs = n.
Proof.
  induction inputs as [|i rest IH]; intros s He Hc; cbv zeta.
  - rewrite finalState_nil, callsOf_nil, He. auto.
  - rewrite finalState_cons, callsOf_cons, countCalls_app.
    cbn [Viewer.errorTransitions]. rewrite He.
    destruct (step_without_error s i He Hc) as [Hc' [[He' Hn]|[He' Hn]]].
    + rewrite He', Hn. simpl. apply IH; assumption.
    + rewrite He', Hn. simpl.
      destruct (run_in_error rest _ He') as (Hf & Hcs & Ht).
      rewrite Hf, Hcs, Ht. auto.
Qed.

Lemma consistent_finalState (inputs : list Input) :
  forall s, consistent s -> consistent (finalState s inputs).
Proof.
  induction inputs as [|i rest IH]; intros s Hc.
  - exact Hc.
  - rewrite finalState_cons. apply IH.
    destruct (error (viewer s)) eqn:He.
    + unfold Viewer.next. destruct i as [p o|on]; simpl.
      * rewrite (Viewer3D_in_error p o s He). exact I.
      * exact Hc.
    + apply (step_without_error s i He Hc).
Qed.

(** A render in which [Model] throws leaves the viewer in error. *)
Lemma throw_sets_error (p : Props) (s : Session) :
  consistent s ->
  noUrl (url p) = false ->
  error (viewer (next s (Render p Throws))) = true.
Proof.
  intros Hc Hu. destruct (error (viewer s)) eqn:He.
  - apply step_in_error, He.
  - unfold Viewer.next. cbn [Viewer.step].
    rewrite (Viewer3D_live p Throws s Hu He Hc). reflexivity.
Qed.

(** ** The layout effect and [onLoaded] *)

Lemma countCalls_onLoaded_effect (cb : option Callback) (g : BufferGeometry) :
  countCalls isOnLoaded (map InEffect (snd (normalize vertexNormals cb g))) =
  match cb with Some _ => 1%nat | None => 0%nat end.
Proof. rewrite normalize_unfold. destruct cb; reflexivity. Qed.

Section OneLoad.

Variable p : Props.
Variable r : GRef.
Hypothesis Hurl : noUrl (url p) = false.

(** The effect has run with the present dependencies: nothing that
    leaves the load as it is runs it again. *)
Lemma step_stable (s : Session) (i : Input) :
  error (viewer s) = false ->
  consistent s ->
  effectDeps s = Some (r, onLoaded p) ->
  sameLoad p r i ->
  error (viewer (next s i)) = false /\
  consistent (next s i) /\
  effectDeps (next s i) = Some (r, onLoaded p) /\
  countCalls isOnLoaded (snd (step s i)) = 0%nat.
Proof.
  intros He Hc Hd Hi. unfold Viewer.next.
  destruct i as [p' o|on]; cbn [Viewer.step].
  - destruct Hi as [-> ->].
    rewrite (Viewer3D_live p (Returns r) s Hurl He Hc).
    unfold Model. cbn [effectDeps setBoundary].
    rewrite bool_decide_eq_true_2 by exact Hd. cbn.
    repeat split; auto. intros H; discriminate H.
  - repeat split; auto.
Qed.

Lemma run_stable (inputs : list Input) :
  forall s,
    error (viewer s) = false ->
    consistent s ->
    effectDeps s = Some (r, onLoaded p) ->
    Forall (sameLoad p r) inputs ->
    countCalls isOnLoaded (callsOf s inputs) = 0%nat.
Proof.
  induction inputs as [|i rest IH]; intros s He Hc Hd Hall.
  - reflexivity.
  - inversion Hall as [|? ? Hi Hrest]; subst.
    destruct (step_stable s i He Hc Hd Hi) as (He' & Hc' & Hd' & Hn).
    rewrite callsOf_cons, countCalls_app, Hn. simpl.
    apply IH; assumption.
Qed.

(** The first render after the mount in which the loader returns the
    geometry runs the effect. *)
Lemma step_first (s : Session) (g : BufferGeometry) :
  error (viewer s) = false ->
  consistent s ->
  effectDeps s = None ->
  heap s !! r = Some g ->
  let i := Render p (Returns r) in
  error (viewer (next s i)) = false /\
  consistent (next s i) /\
  effectDeps (next s i) = Some (r, onLoaded p) /\
  countCalls isOnLoaded (snd (step s i)) = match onLoaded p with Some _ => 1%nat | None => 0%nat end.
Proof.
  intros He Hc Hd Hg. unfold Viewer.next. cbn [Viewer.step].
  rewrite (Viewer3D_live p (Returns r) s Hurl He Hc).
  unfold Model. cbn [effectDeps setBoundary heap]. rewrite Hd.
  rewrite bool_decide_eq_false_2 by discriminate.
  unfold runLayoutEffect. rewrite Hg.
  rewrite (normalize_pair (onLoaded p) g). cbn.
  repeat split; auto.
  - intros H; discriminate H.
  - apply (countCalls_onLoaded_effect (onLoaded p) g).
Qed.

Lemma run_first (inputs : list Input) :
  forall s g,
    error (viewer s) = false ->
    consistent s ->
    effectDeps s = None ->
    heap s !! r = Some g ->
    Forall (sameLoad p r) inputs ->
    In (Render p (Returns r)) inputs ->
    countCalls isOnLoaded (callsOf s inputs) = match onLoaded p with Some _ => 1%nat | None => 0%nat end.
Proof.
  induction inputs as [|i rest IH]; intros s g He Hc Hd Hg Hall Hin.
  - destruct Hin.
  - inversion Hall as [|? ? Hi Hrest]; subst.
    rewrite callsOf_cons, countCalls_app.
    destruct i as [p' o|on].
    + destruct Hi as [-> ->].
      destruct (step_first s g He Hc Hd Hg) as (He' & Hc' & Hd' & Hn).
      rewrite Hn, (run_stable rest _ He' Hc' Hd' Hrest). lia.
    + destruct Hin as [Hin|Hin]; [discriminate Hin|].
      simpl. apply (IH _ g); auto.
Qed.

End OneLoad.

(** ** Without a URL *)

Lemma Viewer3D_without_url (p : Props) (o : Outcome) (s : Session) :
  noUrl (url p) = true ->
  Viewer3D vertexNormals p o s = (unmountCanvas s, NoModelSelected, []).
Proof. intros Hu. unfold Viewer3D. rewrite Hu. reflexivity. Qed.

Lemma run_without_url (inputs : list Input) :
  forall s, Forall withoutUrl inputs ->
    callsOf s inputs = [] /\
    Forall (fun v => v = NoModelSelected) (viewsOf s inputs).
Proof.
  induction inputs as [|i rest IH]; intros s Hall.
  - split; [reflexivity | constructor].
  - inversion Hall as [|? ? Hi Hrest]; subst.
    destruct (IH (next s i) Hrest) as [Hc Hv].
    rewrite callsOf_cons, viewsOf_cons, Hc.
    destruct i as [p o|on]; simpl.
    + rewrite (Viewer3D_without_url p o s Hi). simpl.
      split; [reflexivity | constructor; auto].
    + split; [reflexivity | exact Hv].
Qed.

End ViewerFacts.

(* ===================================================================== *)
(** * Facts about the upload flow                                         *)
(* ===================================================================== *)

Section UploadFacts.

Import Upload.

Variable STLModel : Type.
Variable generateThumbnail : File -> Settled string.
Variable uploadModel : File -> string -> option string -> Settled STLModel.

Abbreviation thumbnailFor := (Upload.thumbnailFor generateThumbnail).
Abbreviation uploadOne := (Upload.uploadOne STLModel generateThumbnail uploadModel).
Abbreviation uploadAll := (Upload.uploadAll STLModel generateThumbnail uploadModel).
Abbreviation handleUpload := (Upload.handleUpload STLModel generateThumbnail uploadModel).

Lemma uploadsIn_app (a b : list Effect) :
  uploadsIn (a ++ b) = uploadsIn a ++ uploadsIn b.
Proof.
  induction a as [|e a IH]; [reflexivity|].
  destruct e; simpl; rewrite IH; reflexivity.
Qed.

Lemma uploadsIn_thumbnailFor (f : File) : uploadsIn (snd (thumbnailFor f)) = [].
Proof.
  unfold Upload.thumbnailFor. destruct (isStl f); [|reflexivity].
  destruct (generateThumbnail f); reflexivity.
Qed.

(** A thumbnail that cannot be generated is no thumbnail. *)
Lemma thumbnailFor_rejected (f : File) :
  generateThumbnail f = Rejected -> fst (thumbnailFor f) = None.
Proof.
  intros H. unfold Upload.thumbnailFor. rewrite H.
  destruct (isStl f); reflexivity.
Qed.

(** One pass through the loop body: exactly one upload, of this file,
    and the queue counter goes down by one, however the calls settle. *)
Lemma uploadOne_spec (target : string) (f : File) (st : AppState STLModel) :
  uploadsIn (snd (uploadOne target f st)) = [(f, target, fst (thumbnailFor f))] /\
  uploadQueue _ (fst (uploadOne target f st)) = (uploadQueue _ st - 1)%Z /\
  (exists added, models _ (fst (uploadOne target f st)) = added ++ models _ st) /\
  (forall m, uploadModel f target (fst (thumbnailFor f)) = Fulfilled m ->
             models _ (fst (uploadOne target f st)) = m :: models _ st).
Proof.
  unfold Upload.uploadOne.
  pose proof (uploadsIn_thumbnailFor f) as Ht.
  destruct (thumbnailFor f) as [th log1]. simpl in *.
  destruct (uploadModel f target th) as [m|]; simpl;
    rewrite uploadsIn_app, Ht; simpl.
  - repeat split; auto.
    + exists [m]. reflexivity.
    + intros m' H. inversion H. reflexivity.
  - repeat split; auto.
    + exists []. reflexivity.
    + intros m' H. discriminate H.
Qed.

Lemma uploadAll_cons (target : string) (f : File) (rest : list File) (st : AppState STLModel) :
  uploadAll target (f :: rest) st =
  (fst (uploadAll target rest (fst (uploadOne target f st))),
   snd (uploadOne target f st) ++ snd (uploadAll target rest (fst (uploadOne target f st)))).
Proof.
  simpl. destruct (uploadOne target f st) as [st1 log1]. simpl.
  destruct (uploadAll target rest st1) as [st2 log2]. reflexivity.
Qed.

(** The loop issues one upload per file of the batch, in the order of
    the batch, and takes every file off the queue counter. *)
Lemma uploadAll_spec (target : string) (files : list File) :
  forall st : AppState STLModel,
    uploadsIn (snd (uploadAll target files st)) =
      map (fun f => (f, target, fst (thumbnailFor f))) files /\
    uploadQueue _ (fst (uploadAll target files st)) =
      (uploadQueue _ st - Z.of_nat (length files))%Z /\
    (exists added, models _ (fst (uploadAll target files st)) = added ++ models _ st).
Proof.
  induction files as [|f rest IH]; intros st.
  - simpl. repeat split; [lia | exists []; reflexivity].
  - rewrite uploadAll_cons. simpl fst. simpl snd.
    destruct (uploadOne_spec target f st) as (Hu & Hq & [a1 Hm] & _).
    destruct (IH (fst (uploadOne target f st))) as (Hu' & Hq' & [a2 Hm']).
    rewrite uploadsIn_app, Hu, Hu', Hq', Hq, Hm', Hm.
    repeat split.
    + rewrite length_cons. lia.
    + exists (a2 ++ a1). rewrite app_assoc. reflexivity.
Qed.

(** A model the API answered with stays in the list until the end of
    the batch. *)
Lemma uploadAll_keeps_model (target : string) (files : list File) :
  forall (st : AppState STLModel) (f : File) (m : STLModel),
    In f files ->
    uploadModel f target (fst (thumbnailFor f)) = Fulfilled m ->
    In m (models _ (fst (uploadAll target files st))).
Proof.
  induction files as [|f0 rest IH]; intros st f m Hin Hup.
  - destruct Hin.
  - rewrite uploadAll_cons. simpl fst.
    destruct Hin as [->|Hin].
    + destruct (uploadOne_spec target f st) as (_ & _ & _ & Hm).
      destruct (uploadAll_spec target rest (fst (uploadOne target f st)))
        as (_ & _ & [added Hadd]).
      rewrite Hadd, (Hm m Hup). apply in_or_app. right. left. reflexivity.
    + apply (IH _ f m Hin Hup).
Qed.

End UploadFacts.

(* ===================================================================== *)
(** * Facts about the mesh decoder                                        *)
(* ===================================================================== *)

Section DecoderFacts.

Import Stdlib.Init.Byte.
Import MeshDecoder.


Lemma length_concat_records (recs : list (list byte)) :
  Forall (fun r => length r = RECORD_BYTES) recs ->
  length (concat recs) = (RECORD_BYTES * length recs)%nat.
Proof.
  induction 1 as [|r recs Hr _ IH]; simpl.
  - lia.
  - rewrite length_app, Hr, IH. unfold RECORD_BYTES. lia.
Qed.

(** Cutting the concatenation of whole records back into records gives
    the records, in order, whatever comes behind them. *)
Lemma records_concat (recs : list (list byte)) (rest : list byte) :
  Forall (fun r => length r = RECORD_BYTES) recs ->
  records (length recs) (concat recs ++ rest) = recs.
Proof.
  induction 1 as [|r recs Hr _ IH]; simpl.
  - reflexivity.
  - rewrite <- app_assoc.
    rewrite <- Hr at 1. rewrite take_app_length.
    rewrite <- Hr at 1. rewrite drop_app_length, IH. reflexivity.
Qed.

Lemma to_N_byteOf (n : N) : Byte.to_N (byteOf n) = (n mod 256)%N.
Proof.
  unfold byteOf. destruct (Byte.of_N (n mod 256)) as [b|] eqn:E; simpl.
  - apply Stdlib.Strings.Byte.to_of_N. exact E.
  - apply Stdlib.Strings.Byte.of_N_None_iff in E.
    pose proof (N.mod_lt n 256). lia.
Qed.

Lemma length_bytesLE (k : nat) : forall n, length (bytesLE k n) = k.
Proof. induction k as [|k IH]; intros n; simpl; [reflexivity | rewrite IH; reflexivity]. Qed.

(** Reading back the [k] low bytes of a number gives the number, cut to
    [k] bytes. *)
Lemma littleEndian_bytesLE (k : nat) :
  forall n, littleEndian (bytesLE k n) = (n mod 256 ^ N.of_nat k)%N.
Proof.
  induction k as [|k IH]; intros n.
  - simpl. rewrite N.mod_1_r. reflexivity.
  - cbn [bytesLE littleEndian]. rewrite to_N_byteOf, IH.
    rewrite Nat2N.inj_succ, N.pow_succ_r'.
    rewrite N.Div0.mod_mul_r. reflexivity.
Qed.

Lemma littleEndian_float (x : Float32) :
  isFloat32 x ->
  littleEndian [byteOf x; byteOf (x / 256); byteOf (x / 256 / 256);
                byteOf (x / 256 / 256 / 256)] = x.
Proof.
  intros Hx. change (littleEndian (bytesLE 4 x) = x).
  rewrite littleEndian_bytesLE. apply N.mod_small. exact Hx.
Qed.

Lemma length_recordOf (face : Triangle * N) : length (recordOf face) = RECORD_BYTES.
Proof. reflexivity. Qed.

(** A face that is written and read back is the triangle it was written
    from. *)
Lemma triangleOfRecord_recordOf (face : Triangle * N) :
  validTriangle (fst face) -> triangleOfRecord (recordOf face) = fst face.
Proof.
  destruct face as [[[nx ny nz] [ax ay az] [bx by' bz] [cx cy cz]] attr].
  intros ((Hn1 & Hn2 & Hn3) & (Ha1 & Ha2 & Ha3) & (Hb1 & Hb2 & Hb3) & (Hc1 & Hc2 & Hc3)).
  cbn in Hn1, Hn2, Hn3, Ha1, Ha2, Ha3, Hb1, Hb2, Hb3, Hc1, Hc2, Hc3.
  unfold triangleOfRecord, vec3At, float32At, recordOf, vec3Bytes.
  cbn [fst snd facetNormal vertexA vertexB vertexC fx fy fz bytesLE app firstn skipn
       Nat.add].
  rewrite !littleEndian_float by assumption. reflexivity.
Qed.

Lemma map_triangleOfRecord_recordOf (faces : list (Triangle * N)) :
  Forall (fun face => validTriangle (fst face)) faces ->
  map triangleOfRecord (map recordOf faces) = map fst faces.
Proof.
  induction 1 as [|face faces Hf _ IH]; simpl.
  - reflexivity.
  - rewrite (triangleOfRecord_recordOf face Hf), IH. reflexivity.
Qed.

Lemma Forall_length_recordOf (faces : list (Triangle * N)) :
  Forall (fun r => length r = RECORD_BYTES) (map recordOf faces).
Proof. apply Forall_map, Forall_true. intros face. apply length_recordOf. Qed.

Lemma length_encode (header : list byte) (faces : list (Triangle * N)) :
  length header = HEADER_BYTES ->
  length (encode header faces) =
  (HEADER_BYTES + COUNT_BYTES + RECORD_BYTES * length faces)%nat.
Proof.
  intros Hh. unfold encode.
  rewrite !length_app, Hh, length_bytesLE,
    (length_concat_records _ (Forall_length_recordOf faces)), length_map.
  reflexivity.
Qed.

(** The count field of a buffer that starts with a well-formed header and
    count. *)
Lemma declaredCount_prefix (header rest : list byte) (n : N) :
  length header = HEADER_BYTES ->
  (n < 2 ^ 32)%N ->
  declaredCount (header ++ bytesLE 4 n ++ rest) = n.
Proof.
  intros Hh Hn. unfold declaredCount.
  rewrite <- Hh, drop_app_length.
  replace COUNT_BYTES with (length (bytesLE 4 n)) by apply length_bytesLE.
  rewrite take_app_length, littleEndian_bytesLE. apply N.mod_small. exact Hn.
Qed.

(** The faces of a buffer that starts with a well-formed file, whatever
    comes behind the file. *)
Lemma parseBinary_encode (header : list byte) (faces : list (Triangle * N))
    (rest : list byte) :
  wellFormed header faces ->
  parseBinary (encode header faces ++ rest) = inr (map fst faces).
Proof.
  intros (Hh & Hn & Hv). unfold parseBinary.
  assert (Hbuf : encode header faces ++ rest =
                 header ++ bytesLE 4 (N.of_nat (length faces))
                 ++ (concat (map recordOf faces) ++ rest)).
  { unfold encode. rewrite <- !app_assoc. reflexivity. }
  assert (Hcount : declaredCount (encode header faces ++ rest) = N.of_nat (length faces)).
  { rewrite Hbuf. apply declaredCount_prefix; assumption. }
  assert (Hdrop : skipn (HEADER_BYTES + COUNT_BYTES) (encode header faces ++ rest) =
                  concat (map recordOf faces) ++ rest).
  { rewrite Hbuf, app_assoc.
    replace (HEADER_BYTES + COUNT_BYTES)%nat
      with (length (header ++ bytesLE 4 (N.of_nat (length faces))))
      by (rewrite length_app, length_bytesLE, Hh; reflexivity).
    apply drop_app_length. }
  rewrite Hcount, Hdrop, length_app, (length_encode header faces Hh), Nat2N.id.
  unfold HEADER_BYTES, COUNT_BYTES, RECORD_BYTES in *.
  destruct (N.leb_spec (N.of_nat (80 + 4) + N.of_nat 50 * N.of_nat (length faces))
              (N.of_nat (80 + 4 + 50 * length faces + length rest))) as [_|H]; [|lia].
  rewrite <- (length_map recordOf faces).
  rewrite (records_concat _ rest (Forall_length_recordOf faces)).
  rewrite (map_triangleOfRecord_recordOf faces Hv). reflexivity.
Qed.

Section WithLoader.

Variable looksLikeText : list byte -> bool.
Variable parseASCII : list byte -> DecodeError + list Triangle.


(** Bytes behind a well-formed file are not looked at, unless they make
    the loader take the file for text. *)
Lemma decode_trailing (header : list byte) (faces : list (Triangle * N))
    (rest : list byte) :
  wellFormed header faces ->
  looksLikeText (encode header faces ++ rest) = false ->
  decode looksLikeText parseASCII (encode header faces ++ rest) = inr (map fst faces).
Proof.
  intros Hwf Htext. unfold decode, isBinary. rewrite Htext.
  pose proof (parseBinary_encode header faces rest Hwf) as Hp.
  pose proof Hwf as (Hh & _).
  rewrite length_app, (length_encode header faces Hh).
  unfold HEADER_BYTES, COUNT_BYTES, RECORD_BYTES in *.
  destruct (N.ltb_spec (N.of_nat (80 + 4 + 50 * length faces + length rest))
              (N.of_nat (80 + 4))) as [H|_]; [lia|].
  destruct (N.eqb _ _); exact Hp.
Qed.






End WithLoader.

Example decode_empty_buffer :
  decode matchesSolid (fun _ => inr []) [] = inl RangeError.
Proof. reflexivity. Qed.

(** One face whose first float has the bytes 00 00 80 3f (1.0). *)
Example decode_one_triangle :
  decode matchesSolid (fun _ => inr [])
    (repeat x00 80 ++ [x01; x00; x00; x00]
       ++ [x00; x00; x80; x3f] ++ repeat x00 46)
  = inr [mkTriangle (mkVec3f 1065353216 0 0) (mkVec3f 0 0 0)
           (mkVec3f 0 0 0) (mkVec3f 0 0 0)].
Proof. reflexivity. Qed.

(** A file that says "solid" and is not of the length of a binary file
    goes to the parser of text files. *)
Example decode_text :
  isBinary matchesSolid ([x73; x6f; x6c; x69; x64; x20] ++ repeat x20 100) = inr false.
Proof. reflexivity. Qed.

End DecoderFacts.

Section DecoderRoundTrip.

Import Stdlib.Init.Byte.
Import MeshDecoder.













End DecoderRoundTrip.

(* ===================================================================== *)
(** * The properties of the specification                                 *)
(* ===================================================================== *)

Import Geometry Viewer.

(** ** Normalization *)

(** A geometry whose bounding box is already centred on the origin is
    left where it is by [center]. *)
Lemma centered_fixed (g : BufferGeometry) :
  veq (getCenter (setFromPoints (position g))) vzero ->
  veq (centerOffset g) vzero /\
  Forall2 veq (position (centered g)) (position g).
Proof.
  intros (Hx & Hy & Hz). unfold centered, translate, centerOffset. cbn [position].
  set (c := getCenter (setFromPoints (position g))) in *. clearbody c.
  cbn [vzero vx vy vz] in Hx, Hy, Hz.
  split.
  - unfold veq, vneg, vzero. cbn [vx vy vz]. repeat split; lra.
  - induction (position g) as [|q ps IH]; simpl.
    + constructor.
    + constructor; [|exact IH].
      unfold veq, vadd, vneg. cbn [vx vy vz]. repeat split; lra.
Qed.

(** Centering twice is centering once. *)
Lemma centered_twice (g : BufferGeometry) :
  Forall2 veq (position (centered (centered g))) (position (centered g)).
Proof. apply centered_fixed, centered_at_origin. Qed.



(** The scenario of the specification: the triangle (0,0,0), (1,0,0),
    (0,1,0) is reported with the size (1,1,0). *)
Example unitTriangle_size :
  match snd (normalize (fun ps => ps) (Some 7%nat) unitTriangle) with
  | [_; _; _; EvOnLoaded cb size] => cb = 7%nat /\ veq size (V3 1 1 0)
  | _ => False
  end.
Proof. vm_compute. repeat split; reflexivity. Qed.

(** C9.  Centering a mesh that is already centred is a translation by
    (0,0,0): every vertex stays where it is. *)
Theorem centering_idempotent :
  forall g : BufferGeometry,
    veq (getCenter (setFromPoints (position g))) vzero ->
    veq (centerOffset g) vzero /\
    Forall2 veq (position (centered g)) (position g).
Proof. exact centered_fixed. Qed.

Lemma centering_idempotent_witness :
  veq (getCenter (setFromPoints (position centredTriangle))) vzero /\
  veq (centerOffset centredTriangle) vzero /\
  Forall2 veq (position (centered centredTriangle)) (position centredTriangle).
Proof.
  assert (H : veq (getCenter (setFromPoints (position centredTriangle))) vzero).
  { vm_compute. repeat split; reflexivity. }
  split; [exact H|]. apply (centering_idempotent centredTriangle H).
Defined.

Section VertexNormals.

Import Normals.
Import Stdlib.Reals.Reals.




End VertexNormals.

(** C7, as the code has it.  A geometry without triangles is normalized
    like any other: no error is raised, the bounding box is the empty
    box, a size of (0,0,0) is reported when there is a callback, and
    [Model] renders the mesh element with it. *)
Theorem empty_geometry_normalized_and_rendered :
  forall (vertexNormals : list Vector3 -> list Vector3)
         (h : gmap nat BufferGeometry) (r : GRef) (g : BufferGeometry)
         (u : string) (cb : option Callback),
    h !! r = Some g ->
    position g = [] ->
    noUrl (Some u) = false ->
    let '(s', view, calls) :=
      Viewer3D vertexNormals (mkProps (Some u) cb) (Returns r) (mount h) in
    view = Canvas (Mesh r) /\
    heap s' !! r = Some (mkGeometry [] (Some (vertexNormals [])) (Some EmptyBox)) /\
    calls = [UseLoader u; InEffect EvComputeVertexNormals; InEffect EvCenter;
             InEffect EvComputeBoundingBox] ++
            match cb with
            | Some f => [InEffect (EvOnLoaded f vzero)]
            | None => []
            end.
Proof.
  intros vn h r g u cb Hg Hp Hu.
  rewrite (Viewer3D_first_load vn h r g u cb Hg Hu).
  rewrite normalize_unfold. cbn [fst snd heap].
  split; [reflexivity|]. split.
  - rewrite lookup_insert_eq. unfold withBoundingBox, centered, translate, setNormals.
    cbn [position normal boundingBox]. rewrite Hp. reflexivity.
  - unfold centered, translate. cbn [position]. rewrite Hp.
    destruct cb; reflexivity.
Qed.

Lemma empty_geometry_normalized_and_rendered_witness :
  ({[ 0%nat := emptyGeometry ]} : gmap nat BufferGeometry) !! 0%nat = Some emptyGeometry /\
  position emptyGeometry = [] /\
  noUrl (Some "empty.stl"%string) = false /\
  let '(s', view, calls) :=
    Viewer3D (fun ps => ps) (mkProps (Some "empty.stl"%string) (Some 7%nat))
      (Returns 0%nat) (mount {[ 0%nat := emptyGeometry ]}) in
  view = Canvas (Mesh 0%nat) /\
  heap s' !! 0%nat = Some (mkGeometry [] (Some []) (Some EmptyBox)) /\
  calls = [UseLoader "empty.stl"%string; InEffect EvComputeVertexNormals;
           InEffect EvCenter; InEffect EvComputeBoundingBox] ++
          [InEffect (EvOnLoaded 7%nat vzero)].
Proof.
  split; [reflexivity|]. split; [reflexivity|]. split; [reflexivity|].
  apply (empty_geometry_normalized_and_rendered (fun ps => ps)
           {[ 0%nat := emptyGeometry ]} 0%nat emptyGeometry "empty.stl"%string
           (Some 7%nat));
    reflexivity.
Defined.

(** C7 as stated fails: for the geometry with zero triangles the
    normalizer returns a geometry instead of failing, and the viewer
    renders it. *)
Lemma empty_geometry_not_refused :
  triangleCount emptyGeometry = 0%nat /\
  fst (normalize (fun ps => ps) (Some 7%nat) emptyGeometry)
    = mkGeometry [] (Some []) (Some EmptyBox) /\
  snd (fst (Viewer3D (fun ps => ps) (mkProps (Some "empty.stl"%string) (Some 7%nat))
              (Returns 0%nat) (mount {[ 0%nat := emptyGeometry ]})))
    = Canvas (Mesh 0%nat).
Proof. split; [reflexivity|]. split; reflexivity. Qed.

(** ** The render session *)

(** C2, as the code has it.  Once the error flag of a mounted viewer is
    set, the boundary renders nothing and every later render of the same
    viewer returns the "Error loading model" placeholder (the "No model
    selected" placeholder when there is no URL), whatever URL it is
    given: [Model] is not evaluated, no call is made and the flag stays
    set.  Only a viewer that is mounted anew starts without error. *)
Theorem error_persists_until_remount :
  forall (vertexNormals : list Vector3 -> list Vector3) (s : Session),
    error (viewer s) = true ->
    (forall p o,
        Viewer3D vertexNormals p o s =
        (unmountCanvas s,
         if noUrl (url p) then NoModelSelected else ErrorLoadingModel,
         [])) /\
    (forall inputs,
        error (viewer (finalState vertexNormals s inputs)) = true /\
        callsOf vertexNormals s inputs = [] /\
        Forall (fun v => v = ErrorLoadingModel \/ v = NoModelSelected)
               (viewsOf vertexNormals s inputs)) /\
    ErrorBoundary_render getDerivedStateFromError = false /\
    (forall h, error (viewer (mount h)) = false).
Proof.
  intros vn s He. split; [|split; [|split]].
  - intros p o. apply Viewer3D_in_error, He.
  - intros inputs. destruct (run_in_error vn inputs s He) as (Hf & Hc & _).
    split; [exact Hf|]. split; [exact Hc|]. apply views_in_error, He.
  - reflexivity.
  - reflexivity.
Qed.

(** A viewer in which the load of "a.stl" has failed. *)
Lemma error_persists_until_remount_witness :
  let vn := fun ps : list Vector3 => ps in
  let s := finalState vn (mount ∅) [Render (mkProps (Some "a.stl"%string) None) Throws] in
  error (viewer s) = true /\
  (forall p o,
      Viewer3D vn p o s =
      (unmountCanvas s,
       if noUrl (url p) then NoModelSelected else ErrorLoadingModel,
       [])) /\
  (forall inputs,
      error (viewer (finalState vn s inputs)) = true /\
      callsOf vn s inputs = [] /\
      Forall (fun v => v = ErrorLoadingModel \/ v = NoModelSelected) (viewsOf vn s inputs)) /\
  ErrorBoundary_render getDerivedStateFromError = false /\
  (forall h, error (viewer (mount h)) = false).
Proof.
  cbv zeta. split; [reflexivity|].
  apply (error_persists_until_remount (fun ps => ps)). reflexivity.
Defined.

(** C2 as stated fails: after the load of "a.stl" has failed, a render
    with the new URL "b.stl", for which the loader has a geometry, still
    returns the error placeholder and does not even ask the loader. *)
Lemma new_url_keeps_error_placeholder :
  let vn := fun ps : list Vector3 => ps in
  let inputs := [Render (mkProps (Some "a.stl"%string) None) Throws;
                 Render (mkProps (Some "b.stl"%string) None) (Returns 0%nat)] in
  let s0 := mount {[ 0%nat := unitTriangle ]} in
  viewsOf vn s0 inputs = [Canvas Nothing; ErrorLoadingModel] /\
  callsOf vn s0 inputs = [UseLoader "a.stl"%string; ConsoleError; OnError] /\
  error (viewer (finalState vn s0 inputs)) = true.
Proof. cbv zeta. split; [reflexivity|]. split; reflexivity. Qed.

(** C3 as stated fails: the same URL and the same loaded geometry, but
    a parent that passes a new function object as [onLoaded] on its next
    render: the effect runs again and the size is reported twice. *)
Lemma new_callback_identity_reports_again :
  let inputs := [Render (mkProps (Some "cube.stl"%string) (Some 1%nat)) (Returns 0%nat);
                 Render (mkProps (Some "cube.stl"%string) (Some 2%nat)) (Returns 0%nat)] in
  countCalls isOnLoaded
    (callsOf (fun ps => ps) (mount {[ 0%nat := unitTriangle ]}) inputs) = 2%nat.
Proof. cbv zeta. vm_compute. reflexivity. Qed.

(** C4 against the code.  The boundary stands around [Model] alone.
    When another component of the canvas throws while it renders (say
    [Stage], whose environment preset cannot be fetched), in a viewer
    that has a URL and is not in error, whatever was rendered before:
    the exception reaches no boundary, the pass does not commit,
    [onError] has not been called once in the whole session and the
    viewer has never entered its error state. *)
Theorem fault_outside_boundary_is_not_reported :
  forall (vertexNormals : list Vector3 -> list Vector3)
         (h : gmap nat BufferGeometry) (before : list Input)
         (c : CanvasTree.Component) (p : Props) (o : Outcome),
    noUrl (url p) = false ->
    error (viewer (finalState vertexNormals (mount h) before)) = false ->
    c <> CanvasTree.ModelTag ->
    exists calls,
      CanvasTree.renderPass vertexNormals (Some c) p o
        (finalState vertexNormals (mount h) before) = (CanvasTree.Unmounted, calls) /\
      countCalls isOnError (callsOf vertexNormals (mount h) before ++ calls) = 0%nat /\
      errorTransitions vertexNormals (mount h) before = 0%nat.
Proof.
  intros vn h before c p o Hu He Hc.
  pose proof (run_onError_count vn before (mount h) eq_refl (consistent_mount h)) as H.
  cbv zeta in H. rewrite He in H. destruct H as [Hn Ht].
  unfold CanvasTree.renderPass. rewrite Hu, He.
  destruct c; try (exfalso; apply Hc; reflexivity);
    (eexists; split; [reflexivity|]; split; [|exact Ht];
     rewrite countCalls_app, Hn; reflexivity).
Qed.

Lemma fault_outside_boundary_is_not_reported_witness :
  let p := mkProps (Some "cube.stl"%string) (Some 7%nat) in
  let h : gmap nat BufferGeometry := {[ 0%nat := unitTriangle ]} in
  let before := [Render p Suspends; Render p (Returns 0%nat)] in
  noUrl (url p) = false /\
  error (viewer (finalState (fun ps => ps) (mount h) before)) = false /\
  CanvasTree.StageTag <> CanvasTree.ModelTag /\
  exists calls,
    CanvasTree.renderPass (fun ps => ps) (Some CanvasTree.StageTag) p (Returns 0%nat)
      (finalState (fun ps => ps) (mount h) before) = (CanvasTree.Unmounted, calls) /\
    countCalls isOnError (callsOf (fun ps => ps) (mount h) before ++ calls) = 0%nat /\
    errorTransitions (fun ps => ps) (mount h) before = 0%nat.
Proof.
  cbv zeta.
  split; [reflexivity|]. split; [vm_compute; reflexivity|]. split; [discriminate|].
  apply (fault_outside_boundary_is_not_reported (fun ps => ps)
           {[ 0%nat := unitTriangle ]}
           [Render (mkProps (Some "cube.stl"%string) (Some 7%nat)) Suspends;
            Render (mkProps (Some "cube.stl"%string) (Some 7%nat)) (Returns 0%nat)]
           CanvasTree.StageTag
           (mkProps (Some "cube.stl"%string) (Some 7%nat)) (Returns 0%nat));
    [reflexivity | vm_compute; reflexivity | discriminate].
Defined.

(** C10.  Rendered without a URL (absent or the empty string), the
    viewer returns the "No model selected" placeholder and nothing below
    it is mounted: the loader is not asked, and neither [onLoaded] nor
    [onError] is called, for as long as there is no URL. *)
Theorem no_url_placeholder :
  forall (vertexNormals : list Vector3 -> list Vector3)
         (p : Props) (o : Outcome) (s : Session),
    noUrl (url p) = true ->
    Viewer3D vertexNormals p o s = (unmountCanvas s, NoModelSelected, []) /\
    boundary (unmountCanvas s) = None /\
    effectDeps (unmountCanvas s) = None /\
    (forall inputs, Forall withoutUrl inputs ->
       callsOf vertexNormals s inputs = [] /\
       Forall (fun v => v = NoModelSelected) (viewsOf vertexNormals s inputs)).
Proof.
  intros vn p o s Hu. split; [apply Viewer3D_without_url, Hu|].
  split; [reflexivity|]. split; [reflexivity|].
  intros inputs Hall. apply run_without_url, Hall.
Qed.

Lemma no_url_placeholder_witness :
  noUrl (url (mkProps (Some ""%string) (Some 7%nat))) = true /\
  noUrl (url (mkProps None (Some 7%nat))) = true /\
  Viewer3D (fun ps => ps) (mkProps (Some ""%string) (Some 7%nat)) (Returns 0%nat)
    (mount {[ 0%nat := unitTriangle ]})
  = (unmountCanvas (mount {[ 0%nat := unitTriangle ]}), NoModelSelected, []).
Proof.
  split; [reflexivity|]. split; [reflexivity|].
  apply (no_url_placeholder (fun ps => ps) (mkProps (Some ""%string) (Some 7%nat))
           (Returns 0%nat) (mount {[ 0%nat := unitTriangle ]})).
  reflexivity.
Defined.

(** ** The decoder *)

Import MeshDecoder.




(** ** The upload flow *)

Import Upload.

(** C8.  When the thumbnail of a file of the batch cannot be generated,
    that file is still uploaded, without a thumbnail; every file of the
    batch is uploaded, in the order of the batch; the model the API
    answers with is in the list afterwards; and the queue counter is
    back where it started. *)
Theorem thumbnail_failure_does_not_block_upload :
  forall (STLModel : Type)
         (generateThumbnail : File -> Settled string)
         (uploadModel : File -> string -> option string -> Settled STLModel)
         (files : list File) (st : AppState STLModel) (f : File),
    In f files ->
    isStl f = true ->
    generateThumbnail f = Rejected ->
    let result := handleUpload STLModel generateThumbnail uploadModel files st in
    In (f, targetFolderId _ st, None) (uploadsIn (snd result)) /\
    map (fun u => fst (fst u)) (uploadsIn (snd result)) = files /\
    uploadQueue _ (fst result) = uploadQueue _ st /\
    (forall m, uploadModel f (targetFolderId _ st) None = Fulfilled m ->
               In m (models _ (fst result))).
Proof.
  intros M gen up files st f Hin Hstl Hrej result. unfold result, handleUpload.
  set (st0 := setUploadQueue M _ st).
  set (target := targetFolderId M st).
  destruct (uploadAll_spec M gen up target files st0) as (Hu & Hq & _).
  pose proof (thumbnailFor_rejected gen f Hrej) as Hth.
  split; [|split; [|split]].
  - rewrite Hu. rewrite <- Hth.
    apply (in_map (fun f0 => (f0, target, fst (Upload.thumbnailFor gen f0)))), Hin.
  - rewrite Hu, map_map. simpl. apply map_id.
  - rewrite Hq. unfold st0. simpl. lia.
  - intros m Hm. apply (uploadAll_keeps_model M gen up target files st0 f m Hin).
    rewrite Hth. exact Hm.
Qed.

Lemma thumbnail_failure_does_not_block_upload_witness :
  let generateThumbnail := fun f : File =>
        if String.eqb (name f) "Bracket.STL" then Rejected else Fulfilled "png"%string in
  let uploadModel := fun (f : File) (_ : string) (_ : option string) =>
        Fulfilled (handle f) in
  let bad := mkFile "Bracket.STL" 1 in
  let files := [mkFile "gear.stl" 0; bad; mkFile "notes.txt" 2] in
  let st := mkApp nat [mkFolder "f1"] [] "all" 0%Z in
  In bad files /\
  isStl bad = true /\
  generateThumbnail bad = Rejected /\
  let result := handleUpload nat generateThumbnail uploadModel files st in
  In (bad, targetFolderId _ st, None) (uploadsIn (snd result)) /\
  map (fun u => fst (fst u)) (uploadsIn (snd result)) = files /\
  uploadQueue _ (fst result) = uploadQueue _ st /\
  (forall m, uploadModel bad (targetFolderId _ st) None = Fulfilled m ->
             In m (models _ (fst result))).
Proof.
  cbv zeta.
  split; [right; left; reflexivity|]. split; [reflexivity|]. split; [reflexivity|].
  apply (thumbnail_failure_does_not_block_upload nat
           (fun f : File =>
              if String.eqb (name f) "Bracket.STL" then Rejected else Fulfilled "png"%string)
           (fun (f : File) (_ : string) (_ : option string) => Fulfilled (handle f))
           [mkFile "gear.stl" 0; mkFile "Bracket.STL" 1; mkFile "notes.txt" 2]
           (mkApp nat [mkFolder "f1"] [] "all" 0%Z)
           (mkFile "Bracket.STL" 1)).
  - right; left; reflexivity.
  - reflexivity.
  - reflexivity.
Defined.

(** The batch of the example, run: three uploads in order, the second
    without a thumbnail, the text file without one either. *)
Example handleUpload_batch :
  let generateThumbnail := fun f : File =>
        if String.eqb (name f) "Bracket.STL" then Rejected else Fulfilled "png"%string in
  let uploadModel := fun (f : File) (_ : string) (_ : option string) =>
        Fulfilled (handle f) in
  handleUpload nat generateThumbnail uploadModel
    [mkFile "gear.stl" 0; mkFile "Bracket.STL" 1; mkFile "notes.txt" 2]
    (mkApp nat [mkFolder "f1"] [] "all" 0%Z)
  = (mkApp nat [mkFolder "f1"] [2; 1; 0]%nat "all" 0%Z,
     [CallGenerateThumbnail (mkFile "gear.stl" 0);
      CallUploadModel (mkFile "gear.stl" 0) "f1" (Some "png"%string);
      CallGenerateThumbnail (mkFile "Bracket.STL" 1);
      ConsoleWarn;
      CallUploadModel (mkFile "Bracket.STL" 1) "f1" None;
      CallUploadModel (mkFile "notes.txt" 2) "f1" None]).
Proof. reflexivity. Qed.

(* ===================================================================== *)
(** * More about the upload flow                                          *)
(* ===================================================================== *)

Section UploadLogFacts.

Import Upload UploadLog.

Variable STLModel : Type.
Variable generateThumbnail : File -> Settled string.
Variable uploadModel : File -> string -> option string -> Settled STLModel.

Abbreviation thumbnailFor := (Upload.thumbnailFor generateThumbnail).
Abbreviation uploadOne := (Upload.uploadOne STLModel generateThumbnail uploadModel).
Abbreviation uploadAll := (Upload.uploadAll STLModel generateThumbnail uploadModel).

(** How the upload of [f] into [target] settles. *)
Abbreviation uploadOf target f := (uploadModel f target (fst (thumbnailFor f))).

Lemma thumbnailsAskedIn_app (a b : list Effect) :
  thumbnailsAskedIn (a ++ b) = thumbnailsAskedIn a ++ thumbnailsAskedIn b.
Proof.
  induction a as [|e a IH]; [reflexivity|].
  destruct e; simpl; rewrite IH; reflexivity.
Qed.

Lemma errorsIn_app (a b : list Effect) : errorsIn (a ++ b) = errorsIn a ++ errorsIn b.
Proof.
  induction a as [|e a IH]; [reflexivity|].
  destruct e; simpl; rewrite IH; reflexivity.
Qed.

Lemma warningsIn_app (a b : list Effect) :
  warningsIn (a ++ b) = (warningsIn a + warningsIn b)%nat.
Proof.
  induction a as [|e a IH]; [reflexivity|].
  destruct e; simpl; rewrite IH; reflexivity.
Qed.

(** Everything one pass through the loop body leaves behind. *)
Lemma uploadOne_log (target : string) (f : File) (st : AppState STLModel) :
  let log := snd (uploadOne target f st) in
  thumbnailsAskedIn log = (if isStl f then [f] else []) /\
  warningsIn log =
    (if isStl f && negb (isFulfilled (generateThumbnail f)) then 1 else 0)%nat /\
  errorsIn log = (if isFulfilled (uploadOf target f) then [] else [name f]) /\
  models _ (fst (uploadOne target f st)) = fulfilled (uploadOf target f) ++ models _ st /\
  folders _ (fst (uploadOne target f st)) = folders _ st /\
  currentFolderId _ (fst (uploadOne target f st)) = currentFolderId _ st.
Proof.
  unfold Upload.uploadOne, Upload.thumbnailFor.
  destruct (isStl f); [destruct (generateThumbnail f) as [t|]|]; cbn;
    match goal with
    | |- context [uploadModel f target ?th] => destruct (uploadModel f target th) as [m|]
    end; cbn; repeat split; reflexivity.
Qed.

Lemma uploadAll_app (target : string) (done todo : list File) :
  forall st : AppState STLModel,
    uploadAll target (done ++ todo) st =
    (fst (uploadAll target todo (fst (uploadAll target done st))),
     snd (uploadAll target done st)
       ++ snd (uploadAll target todo (fst (uploadAll target done st)))).
Proof.
  induction done as [|f done IH]; intros st.
  - simpl. destruct (uploadAll target todo st); reflexivity.
  - rewrite <- app_comm_cons, !uploadAll_cons, IH. cbn [fst snd].
    rewrite app_assoc. reflexivity.
Qed.

Lemma uploadAll_log (target : string) (files : list File) :
  forall st : AppState STLModel,
    let log := snd (uploadAll target files st) in
    thumbnailsAskedIn log = List.filter isStl files /\
    warningsIn log =
      length (List.filter (fun f => isStl f && negb (isFulfilled (generateThumbnail f))) files) /\
    errorsIn log =
      map name (List.filter (fun f => negb (isFulfilled (uploadOf target f))) files) /\
    models _ (fst (uploadAll target files st)) =
      rev (flat_map (fun f => fulfilled (uploadOf target f)) files) ++ models _ st /\
    folders _ (fst (uploadAll target files st)) = folders _ st /\
    currentFolderId _ (fst (uploadAll target files st)) = currentFolderId _ st.
Proof.
  induction files as [|f rest IH]; intros st.
  - cbn. repeat split; reflexivity.
  - cbv zeta. rewrite uploadAll_cons. cbn [fst snd].
    destruct (uploadOne_log target f st) as (Ht & Hw & He & Hm & Hf & Hc).
    destruct (IH (fst (uploadOne target f st))) as (Ht' & Hw' & He' & Hm' & Hf' & Hc').
    cbv zeta in *.
    rewrite thumbnailsAskedIn_app, warningsIn_app, errorsIn_app.
    rewrite Ht, Hw, He, Ht', Hw', He', Hm', Hm, Hf', Hf, Hc', Hc.
    cbn [List.filter flat_map map].
    repeat split.
    + destruct (isStl f); reflexivity.
    + destruct (isStl f && negb (isFulfilled (generateThumbnail f))); reflexivity.
    + destruct (isFulfilled (uploadOf target f)); reflexivity.
    + rewrite rev_app_distr, <- app_assoc.
      destruct (uploadOf target f); reflexivity.
Qed.

End UploadLogFacts.

(** ** File names *)

Section FileNames.

Import Upload.
Open Scope string_scope.

Lemma substring_whole (s : string) : substring 0 (String.length s) s = s.
Proof. induction s as [|c s IH]; simpl; [reflexivity | rewrite IH; reflexivity]. Qed.

Lemma substring_append_r (pre suffix : string) :
  substring (String.length pre) (String.length suffix) (pre ++ suffix) = suffix.
Proof. induction pre as [|c pre IH]; simpl; [apply substring_whole | exact IH]. Qed.

Lemma substring_split (s : string) :
  forall k m, (k + m = String.length s)%nat -> s = substring 0 k s ++ substring k m s.
Proof.
  induction s as [|c s IH]; intros k m H; simpl in H.
  - destruct k, m; try discriminate H. reflexivity.
  - destruct k as [|k]; simpl.
    + destruct m as [|m]; [discriminate H|]. simpl.
      injection H as H. subst m. rewrite substring_whole. reflexivity.
    + change (String c s = String c (substring 0 k s ++ substring k m s)).
      f_equal. apply IH. lia.
Qed.

Lemma length_append (a b : string) :
  String.length (a ++ b) = (String.length a + String.length b)%nat.
Proof. induction a as [|c a IH]; simpl; [reflexivity | rewrite IH; reflexivity]. Qed.

(** [endsWith] is what its name says. *)
Lemma endsWith_spec (s suffix : string) :
  endsWith s suffix = true <-> exists pre, s = pre ++ suffix.
Proof.
  unfold endsWith. split.
  - destruct (Nat.leb_spec (String.length suffix) (String.length s)) as [Hle|];
      [|discriminate].
    intros H. apply String.eqb_eq in H.
    exists (substring 0 (String.length s - String.length suffix) s).
    pose proof (substring_split s (String.length s - String.length suffix)
                  (String.length suffix) ltac:(lia)) as E.
    rewrite H in E. exact E.
  - intros [pre ->]. rewrite length_append.
    destruct (Nat.leb_spec (String.length suffix)
                (String.length pre + String.length suffix)) as [_|Hlt]; [|lia].
    replace (String.length pre + String.length suffix - String.length suffix)%nat
      with (String.length pre) by lia.
    rewrite substring_append_r. apply String.eqb_refl.
Qed.

Lemma toLowerCase_append (a b : string) :
  toLowerCase (a ++ b) = toLowerCase a ++ toLowerCase b.
Proof. induction a as [|c a IH]; simpl; [reflexivity | rewrite IH; reflexivity]. Qed.

Lemma length_toLowerCase (s : string) : String.length (toLowerCase s) = String.length s.
Proof. induction s as [|c s IH]; simpl; [reflexivity | rewrite IH; reflexivity]. Qed.

Lemma toLowerCase_substring (s : string) :
  forall k m, substring k m (toLowerCase s) = toLowerCase (substring k m s).
Proof.
  induction s as [|c s IH]; intros k m.
  - destruct k, m; reflexivity.
  - destruct k as [|k]; simpl.
    + destruct m as [|m]; simpl; [reflexivity | rewrite IH; reflexivity].
    + apply IH.
Qed.

Lemma lowerAscii_idempotent (c : ascii) : lowerAscii (lowerAscii c) = lowerAscii c.
Proof.
  destruct c as [[|] [|] [|] [|] [|] [|] [|] [|]]; vm_compute; reflexivity.
Qed.

Lemma toLowerCase_idempotent (s : string) : toLowerCase (toLowerCase s) = toLowerCase s.
Proof.
  induction s as [|c s IH]; simpl; [reflexivity|].
  rewrite lowerAscii_idempotent, IH. reflexivity.
Qed.

End FileNames.

(* ===================================================================== *)
(** * Further properties of the upload flow                               *)
(* ===================================================================== *)

(** The test of the code in terms of the lower-cased name. *)
Lemma isStl_iff_lowercase_suffix (f : Upload.File) :
  Upload.isStl f = true <->
  exists pre suffix,
    Upload.name f = String.append pre suffix /\
    Upload.toLowerCase suffix = ".stl"%string.
Proof.
  unfold Upload.isStl. split.
  - unfold Upload.endsWith. rewrite length_toLowerCase.
    destruct (Nat.leb_spec (String.length ".stl") (String.length (Upload.name f)))
      as [Hle|]; [|discriminate].
    rewrite toLowerCase_substring. intros H. apply String.eqb_eq in H.
    exists (substring 0 (String.length (Upload.name f) - String.length ".stl") (Upload.name f)),
           (substring (String.length (Upload.name f) - String.length ".stl")
                      (String.length ".stl") (Upload.name f)).
    split; [|exact H]. apply substring_split. lia.
  - intros (pre & suffix & Hn & Hs). rewrite Hn, toLowerCase_append, Hs.
    apply endsWith_spec. eexists. reflexivity.
Qed.

(** Which characters lower-case to the four characters of ".stl". *)
Lemma lowerAscii_dot (c : ascii) : Upload.lowerAscii c = "."%char -> c = "."%char.
Proof.
  destruct c as [[|] [|] [|] [|] [|] [|] [|] [|]]; vm_compute; intros H;
    first [reflexivity | discriminate H].
Qed.

Lemma lowerAscii_s (c : ascii) :
  Upload.lowerAscii c = "s"%char -> c = "s"%char \/ c = "S"%char.
Proof.
  destruct c as [[|] [|] [|] [|] [|] [|] [|] [|]]; vm_compute; intros H;
    first [left; reflexivity | right; reflexivity | discriminate H].
Qed.

Lemma lowerAscii_t (c : ascii) :
  Upload.lowerAscii c = "t"%char -> c = "t"%char \/ c = "T"%char.
Proof.
  destruct c as [[|] [|] [|] [|] [|] [|] [|] [|]]; vm_compute; intros H;
    first [left; reflexivity | right; reflexivity | discriminate H].
Qed.

Lemma lowerAscii_l (c : ascii) :
  Upload.lowerAscii c = "l"%char -> c = "l"%char \/ c = "L"%char.
Proof.
  destruct c as [[|] [|] [|] [|] [|] [|] [|] [|]]; vm_compute; intros H;
    first [left; reflexivity | right; reflexivity | discriminate H].
Qed.

(** X1.  A thumbnail is asked for a file exactly when the file passes
    the test of the code, and it passes exactly when its name ends in a
    dot followed by the letters s, t, l, each in upper or lower case:
    "a.stl", "a.STL" and "a.Stl" pass, "a.stl.txt" and "stl" do not. *)
Theorem isStl_iff_suffix_any_case :
  forall (generateThumbnail : Upload.File -> Upload.Settled string) (f : Upload.File),
    (In (Upload.CallGenerateThumbnail f)
        (snd (Upload.thumbnailFor generateThumbnail f)) <-> Upload.isStl f = true) /\
    (Upload.isStl f = true <->
     exists pre c1 c2 c3,
       Upload.name f
         = String.append pre (String "." (String c1 (String c2 (String c3 EmptyString)))) /\
       (c1 = "s"%char \/ c1 = "S"%char) /\
       (c2 = "t"%char \/ c2 = "T"%char) /\
       (c3 = "l"%char \/ c3 = "L"%char)).
Proof.
  intros gen f. split.
  - unfold Upload.thumbnailFor. destruct (Upload.isStl f).
    + split; [reflexivity|]. intros _. destruct (gen f); left; reflexivity.
    + split; [intros []|discriminate].
  - rewrite isStl_iff_lowercase_suffix. split.
    + intros (pre & suffix & Hn & Hs).
      destruct suffix as [|c0 [|c1 [|c2 [|c3 [|c4 rest]]]]]; try discriminate Hs.
      cbn [Upload.toLowerCase] in Hs. injection Hs as H0 H1 H2 H3.
      apply lowerAscii_dot in H0. subst c0.
      exists pre, c1, c2, c3. split; [exact Hn|].
      split; [apply lowerAscii_s, H1|]. split; [apply lowerAscii_t, H2 | apply lowerAscii_l, H3].
    + intros (pre & c1 & c2 & c3 & Hn & H1 & H2 & H3).
      exists pre, (String "." (String c1 (String c2 (String c3 EmptyString)))).
      split; [exact Hn|].
      destruct H1 as [-> | ->], H2 as [-> | ->], H3 as [-> | ->]; reflexivity.
Qed.

Example isStl_examples :
  map (fun n => Upload.isStl (Upload.mkFile n 0))
      ["a.stl"; "a.STL"; "a.Stl"; "a.stl.txt"; "stl"; ".stl"; "a.st"]%string
  = [true; true; true; false; false; true; false].
Proof. reflexivity. Qed.

Section UploadBatch.

Import Upload UploadLog.

Variable STLModel : Type.
Variable generateThumbnail : File -> Settled string.
Variable uploadModel : File -> string -> option string -> Settled STLModel.

Abbreviation handleUpload := (Upload.handleUpload STLModel generateThumbnail uploadModel).
Abbreviation uploadAll := (Upload.uploadAll STLModel generateThumbnail uploadModel).
Abbreviation thumbnailFor := (Upload.thumbnailFor generateThumbnail).

(** X2.  After a batch the list of models is: the models the API
    answered with, the one of the last file first, in front of the models
    that were there; a file whose upload failed contributes nothing and
    takes nothing away.  The folders and the folder that is shown are as
    before. *)
Theorem uploaded_models_newest_first :
  forall (files : list File) (st : AppState STLModel),
    let target := targetFolderId _ st in
    let st' := fst (handleUpload files st) in
    models _ st' =
      rev (flat_map (fun f => fulfilled (uploadModel f target (fst (thumbnailFor f)))) files)
      ++ models _ st /\
    folders _ st' = folders _ st /\
    currentFolderId _ st' = currentFolderId _ st.
Proof.
  intros files st target st'. unfold st', Upload.handleUpload.
  destruct (uploadAll_log STLModel generateThumbnail uploadModel target files
              (setUploadQueue STLModel (fun prev => (prev + Z.of_nat (length files))%Z) st))
    as (_ & _ & _ & Hm & Hf & Hc).
  split; [exact Hm|]. split; [exact Hf | exact Hc].
Qed.

(** X3.  A thumbnail is asked for exactly once for each STL file of the
    batch, in the order of the batch, and never for another file; there
    is one warning for each STL file whose thumbnail could not be
    generated. *)
Theorem thumbnails_only_for_stl_files :
  forall (files : list File) (st : AppState STLModel),
    let log := snd (handleUpload files st) in
    thumbnailsAskedIn log = List.filter isStl files /\
    warningsIn log =
      length (List.filter (fun f => isStl f && negb (isFulfilled (generateThumbnail f))) files).
Proof.
  intros files st log. unfold log, Upload.handleUpload.
  destruct (uploadAll_log STLModel generateThumbnail uploadModel (targetFolderId _ st) files
              (setUploadQueue STLModel (fun prev => (prev + Z.of_nat (length files))%Z) st))
    as (Ht & Hw & _).
  split; [exact Ht | exact Hw].
Qed.

(** X4.  The uploads that fail, and only they, are logged as errors,
    with the name of the file and in the order of the batch. *)
Theorem failed_uploads_logged_by_name :
  forall (files : list File) (st : AppState STLModel),
    let target := targetFolderId _ st in
    errorsIn (snd (handleUpload files st)) =
      map name
        (List.filter
           (fun f => negb (isFulfilled (uploadModel f target (fst (thumbnailFor f)))))
           files).
Proof.
  intros files st target. unfold Upload.handleUpload.
  destruct (uploadAll_log STLModel generateThumbnail uploadModel target files
              (setUploadQueue STLModel (fun prev => (prev + Z.of_nat (length files))%Z) st))
    as (_ & _ & He & _).
  exact He.
Qed.

(** X5.  At any point of a batch, with some files done and the others
    still to do, the queue counter is the count before the batch plus the
    number of files still to do: the batch is the run over the files
    done followed by the run over the rest. *)
Theorem queue_counts_files_to_do :
  forall (done todo : list File) (st : AppState STLModel),
    let target := targetFolderId _ st in
    let st0 := setUploadQueue _ (fun prev => (prev + Z.of_nat (length (done ++ todo)))%Z) st in
    let mid := fst (uploadAll target done st0) in
    handleUpload (done ++ todo) st =
      (fst (uploadAll target todo mid),
       snd (uploadAll target done st0) ++ snd (uploadAll target todo mid)) /\
    uploadQueue _ mid = (uploadQueue _ st + Z.of_nat (length todo))%Z.
Proof.
  intros done todo st target st0 mid. split.
  - unfold Upload.handleUpload. fold target. fold st0.
    apply uploadAll_app.
  - unfold mid.
    destruct (uploadAll_spec STLModel generateThumbnail uploadModel target done st0)
      as (_ & Hq & _).
    rewrite Hq. unfold st0. cbn [uploadQueue setUploadQueue].
    rewrite length_app. lia.
Qed.

End UploadBatch.

(* ===================================================================== *)
(** * Facts about the library of [App]                                    *)
(* ===================================================================== *)

Section LibraryFacts.

Import Library.

(** A string property names at most one string. *)
Lemma propIs_inj (o : JsObject) (key a b : string) :
  propIs o key a = true -> propIs o key b = true -> a = b.
Proof.
  unfold propIs. intros Ha Hb.
  apply bool_decide_eq_true in Ha. apply bool_decide_eq_true in Hb.
  rewrite Ha in Hb. inversion Hb. reflexivity.
Qed.

Lemma propIs_other (o : JsObject) (key a b : string) :
  propIs o key a = true -> a <> b -> propIs o key b = false.
Proof.
  intros Ha Hne. destruct (propIs o key b) eqn:Hb; [|reflexivity].
  destruct (Hne (propIs_inj o key a b Ha Hb)).
Qed.

(** Writing one property leaves the others as they are. *)
Lemma propIs_insert_ne (o : JsObject) (key key' s : string) (v : JsValue) :
  key' <> key -> propIs (<[key' := v]> o) key s = propIs o key s.
Proof. intros Hne. unfold propIs. rewrite lookup_insert_ne by exact Hne. reflexivity. Qed.

(** [{...m, ...updates}]: a property the updates do not mention is the
    one of [m]. *)
Lemma propIs_union_None (updates m : JsObject) (key s : string) :
  updates !! key = None -> propIs (updates ∪ m) key s = propIs m key s.
Proof.
  intros Hn. unfold propIs. rewrite lookup_union_r by exact Hn. reflexivity.
Qed.

Lemma propIs_union_Some (updates m : JsObject) (key s : string) (v : JsValue) :
  updates !! key = Some v ->
  propIs (updates ∪ m) key s = bool_decide (v = JsString s).
Proof.
  intros Hs. unfold propIs. rewrite (lookup_union_Some_l updates m key v Hs).
  destruct (decide (v = JsString s)) as [->|Hne].
  - rewrite !bool_decide_eq_true_2; reflexivity.
  - rewrite !bool_decide_eq_false_2; [reflexivity | exact Hne | congruence].
Qed.

Lemma find_filter_keeps {A} (p q : A -> bool) (l : list A) :
  (forall a, p a = true -> q a = true) ->
  List.find p (List.filter q l) = List.find p l.
Proof.
  intros Hpq. induction l as [|a l IH]; simpl; [reflexivity|].
  destruct (q a) eqn:Hq; simpl.
  - destruct (p a); [reflexivity | exact IH].
  - destruct (p a) eqn:Hp; [|exact IH].
    rewrite (Hpq a Hp) in Hq. discriminate Hq.
Qed.

Lemma find_map_invariant {A} (p : A -> bool) (f : A -> A) (l : list A) :
  (forall a, p (f a) = p a) ->
  List.find p (map f l) = option_map f (List.find p l).
Proof.
  intros Hp. induction l as [|a l IH]; simpl; [reflexivity|].
  rewrite Hp. destruct (p a); [reflexivity | exact IH].
Qed.

Lemma filter_map_split {A} (p q : A -> bool) (f : A -> A) (l : list A) :
  (forall a, q a = true -> p (f a) = false) ->
  (forall a, q a = false -> f a = a) ->
  List.filter p (map f l) = List.filter (fun a => negb (q a)) (List.filter p l).
Proof.
  intros Hout Hid. induction l as [|a l IH]; simpl; [reflexivity|].
  destruct (q a) eqn:Hq.
  - rewrite (Hout a Hq), IH. destruct (p a); simpl; [rewrite Hq|]; reflexivity.
  - rewrite (Hid a Hq), IH. destruct (p a); simpl; [rewrite Hq|]; reflexivity.
Qed.

Lemma performAll_cons (st : State) (a : Action) (rest : list Action) :
  performAll st (a :: rest) = performAll (fst (perform st a)) rest.
Proof. reflexivity. Qed.

Lemma Exists_map_preserved {A} (P : A -> Prop) (f : A -> A) (l : list A) :
  (forall a, P a -> P (f a)) -> Exists P l -> Exists P (map f l).
Proof.
  intros Hf H. induction H as [a l Ha|a l _ IH]; simpl.
  - left. apply Hf, Ha.
  - right. exact IH.
Qed.

Lemma Exists_filter_preserved {A} (P : A -> Prop) (q : A -> bool) (l : list A) :
  (forall a, P a -> q a = true) -> Exists P l -> Exists P (List.filter q l).
Proof.
  intros Hq H. induction H as [a l Ha|a l _ IH]; simpl.
  - rewrite (Hq a Ha). left. exact Ha.
  - destruct (q a); [right|]; exact IH.
Qed.

(** One action keeps the folder that is shown in existence. *)
Lemma perform_currentFolderExists (st : State) (a : Action) :
  currentFolderExists st ->
  match a with
  | SelectFolder id =>
      id = "all"%string \/ Exists (fun f => propIs f "id" id = true) (folders st)
  | _ => True
  end ->
  currentFolderExists (fst (perform st a)).
Proof.
  intros Hinv Hsel. unfold currentFolderExists in *.
  destruct a as [created name|updated id newName|confirmed deleted id|id
                 |updated id updates|confirmed deleted id]; simpl.
  - unfold handleCreateFolder. destruct created; simpl; [|exact Hinv].
    destruct Hinv as [H|H]; [left; exact H | right].
    apply Exists_app. left. exact H.
  - unfold handleRenameFolder. destruct updated; simpl; [|exact Hinv].
    destruct Hinv as [H|H]; [left; exact H | right].
    apply Exists_map_preserved; [|exact H].
    intros f Hf. destruct (propIs f "id" id); [|exact Hf].
    rewrite propIs_insert_ne by discriminate. exact Hf.
  - unfold handleDeleteFolder.
    destruct (existsb _ (models st)); simpl; [exact Hinv|].
    destruct confirmed; simpl; [|exact Hinv].
    destruct deleted; simpl; [|exact Hinv].
    destruct (String.eqb_spec (currentFolderId st) id) as [Heq|Hne]; simpl.
    + left. reflexivity.
    + destruct Hinv as [H|H]; [left; exact H | right].
      apply Exists_filter_preserved; [|exact H].
      intros f Hf. rewrite (propIs_other f "id" _ id Hf Hne). reflexivity.
  - exact Hsel.
  - unfold handleUpdateModel. destruct updated; simpl; exact Hinv.
  - unfold handleDeleteModel. destruct confirmed; simpl; [|exact Hinv].
    destruct deleted; simpl; [|exact Hinv].
    destruct (bool_decide (selectedModelId st = Some id)); simpl; exact Hinv.
Qed.

End LibraryFacts.

(* ===================================================================== *)
(** * Further properties of the library                                   *)
(* ===================================================================== *)

Section LibraryProperties.

Import Library LibraryLog.

(** X6.  [handleDeleteFolder] never removes a folder that one of the
    models it sees belongs to, and never asks the API to delete it:
    whatever folder it is called for, however the user and the API
    answer. *)
Theorem folder_with_models_is_kept :
  forall (seen st : State) (confirmed : bool) (deleted : Outcome unit)
         (id fid : string) (f m : JsObject),
    In m (models seen) ->
    propIs m "folderId" fid = true ->
    In f (folders st) ->
    propIs f "id" fid = true ->
    In f (folders (fst (handleDeleteFolder seen confirmed deleted id st))) /\
    ~ In (ApiDeleteFolder fid) (snd (handleDeleteFolder seen confirmed deleted id st)).
Proof.
  intros seen st confirmed deleted id fid f m Hm Hmf Hf Hfid.
  unfold handleDeleteFolder.
  destruct (existsb (fun m0 => propIs m0 "folderId" id) (models seen)) eqn:Hhas.
  { cbn [fst snd]. split; [exact Hf|]. intros [H|[]]. discriminate H. }
  assert (Hne : fid <> id).
  { intros ->. apply Bool.not_true_iff_false in Hhas. apply Hhas.
    apply existsb_exists. exists m. split; assumption. }
  assert (Hno : forall l : list Effect,
             (forall e, In e l -> e <> ApiDeleteFolder fid) -> ~ In (ApiDeleteFolder fid) l).
  { intros l Hl Hin. exact (Hl _ Hin eq_refl). }
  destruct confirmed; cbn [negb].
  - destruct deleted as [[]|e]; cbn [fst snd].
    + split.
      * assert (Hin : In f (List.filter (fun f0 => negb (propIs f0 "id" id)) (folders st))).
        { apply filter_In. split; [exact Hf|].
          rewrite (propIs_other f "id" fid id Hfid Hne). reflexivity. }
        destruct (String.eqb (currentFolderId seen) id); exact Hin.
      * apply Hno. intros e0 [<-|[<-|[]]]; [discriminate|].
        intros H. inversion H. congruence.
    + split; [exact Hf|]. apply Hno.
      intros e0 [<-|[<-|[<-|[<-|[]]]]]; try discriminate.
      intros H. inversion H. congruence.
  - cbn [fst snd]. split; [exact Hf|]. apply Hno. intros e0 [<-|[]]. discriminate.
Qed.

Lemma folder_with_models_is_kept_witness :
  In gear (models sampleLibrary) /\
  propIs gear "folderId" "f1" = true /\
  In partsFolder (folders sampleLibrary) /\
  propIs partsFolder "id" "f1" = true /\
  In partsFolder
     (folders (fst (handleDeleteFolder sampleLibrary true (Resolved tt) "f1" sampleLibrary))) /\
  ~ In (ApiDeleteFolder "f1")
       (snd (handleDeleteFolder sampleLibrary true (Resolved tt) "f1" sampleLibrary)).
Proof.
  assert (H1 : In gear (models sampleLibrary)) by (left; reflexivity).
  assert (H2 : propIs gear "folderId" "f1" = true) by (vm_compute; reflexivity).
  assert (H3 : In partsFolder (folders sampleLibrary)) by (left; reflexivity).
  assert (H4 : propIs partsFolder "id" "f1" = true) by (vm_compute; reflexivity).
  split; [exact H1|]. split; [exact H2|]. split; [exact H3|]. split; [exact H4|].
  exact (folder_with_models_is_kept sampleLibrary sampleLibrary true (Resolved tt)
           "f1" "f1" partsFolder gear H1 H2 H3 H4).
Defined.

(** X7.  An action the user declines or the API refuses leaves the
    library as it was, with one exception: [handleUpdateModel] has
    changed the list before it calls the API and takes nothing back, so
    the library is the same as if the call had gone through. *)
Theorem refused_action_changes_nothing :
  forall (st : State) (a : Action),
    comesToNothing a = true ->
    fst (perform st a) = if isUpdateModel a then fst (perform st (goingThrough a)) else st.
Proof.
  intros st a H.
  destruct a as [created name|updated id newName|confirmed deleted id|id
                 |updated id updates|confirmed deleted id]; simpl in *.
  - destruct created; [discriminate H | reflexivity].
  - destruct updated; [discriminate H | reflexivity].
  - unfold handleDeleteFolder.
    destruct (existsb _ (models st)); [reflexivity|].
    destruct confirmed; [|reflexivity].
    destruct deleted; [discriminate H | reflexivity].
  - discriminate H.
  - unfold handleUpdateModel. destruct updated; reflexivity.
  - unfold handleDeleteModel. destruct confirmed; [|reflexivity].
    destruct deleted; [discriminate H | reflexivity].
Qed.

Lemma refused_action_changes_nothing_witness :
  let a := UpdateModel (RejectedWith OtherThrown) "m1"
             {[ "name"%string := JsString "cog.stl" ]} in
  comesToNothing a = true /\
  fst (perform sampleLibrary a) = fst (perform sampleLibrary (goingThrough a)) /\
  models (fst (perform sampleLibrary a)) <> models sampleLibrary.
Proof.
  cbv zeta. split; [reflexivity|]. split.
  - apply (refused_action_changes_nothing sampleLibrary
             (UpdateModel (RejectedWith OtherThrown) "m1"
                {[ "name"%string := JsString "cog.stl" ]})).
    reflexivity.
  - vm_compute. discriminate.
Defined.

(** X8.  Renaming a folder touches nothing but names: every other
    property of every folder, the order of the folders, the models and
    the folder that is shown are as before; when the API accepts, every
    folder with the id carries the new name; a folder with another id is
    the very same object as before. *)
Theorem rename_touches_only_names :
  forall (updated : Outcome unit) (id newName : string) (st : State),
    let st' := fst (handleRenameFolder updated id newName st) in
    (forall key, key <> "name"%string ->
       map (fun f : JsObject => f !! key) (folders st')
       = map (fun f : JsObject => f !! key) (folders st)) /\
    models st' = models st /\
    currentFolderId st' = currentFolderId st /\
    (isRejected updated = false ->
       Forall (fun f : JsObject =>
                 propIs f "id" id = true -> f !! "name"%string = Some (JsString newName))
              (folders st')) /\
    Forall2 (fun f f' : JsObject => propIs f "id" id = false -> f' = f)
            (folders st) (folders st').
Proof.
  intros updated id newName st st'. unfold st', handleRenameFolder.
  destruct updated as [[]|e]; cbn [fst folders models currentFolderId setFolders].
  - split; [|split; [|split; [|split]]]; try reflexivity.
    + intros key Hkey. induction (folders st) as [|f l IH]; simpl; [reflexivity|].
      rewrite IH. f_equal.
      destruct (propIs f "id" id); [|reflexivity].
      apply lookup_insert_ne. congruence.
    + intros _. induction (folders st) as [|f l IH]; simpl; constructor; [|exact IH].
      destruct (propIs f "id" id) eqn:Hf.
      * intros _. apply lookup_insert_eq.
      * unfold propIs in *. intros H. rewrite H in Hf. discriminate Hf.
    + induction (folders st) as [|f l IH]; simpl; constructor; [|exact IH].
      intros Hf. rewrite Hf. reflexivity.
  - split; [|split; [|split; [|split]]]; try reflexivity.
    + intros H. discriminate H.
    + induction (folders st) as [|f l IH]; constructor; [reflexivity | exact IH].
Qed.

Lemma rename_touches_only_names_witness :
  let st' := fst (handleRenameFolder (Resolved tt) "f1" "Spares" sampleLibrary) in
  map (fun f : JsObject => f !! "id"%string) (folders st')
    = [Some (JsString "f1"); Some (JsString "f2")] /\
  map (fun f : JsObject => f !! "name"%string) (folders st')
    = [Some (JsString "Spares"); Some (JsString "Toys")] /\
  Forall (fun f : JsObject =>
            propIs f "id" "f1" = true -> f !! "name"%string = Some (JsString "Spares"))
         (folders st').
Proof.
  cbv zeta.
  destruct (rename_touches_only_names (Resolved tt) "f1" "Spares" sampleLibrary)
    as (Hkeys & _ & _ & Hnamed & _).
  split; [|split].
  - rewrite (Hkeys "id"%string) by discriminate. vm_compute. reflexivity.
  - vm_compute. reflexivity.
  - apply Hnamed. reflexivity.
Defined.

(** X9.  Two updates of the same model, one after the other, come to
    the one update that merges them, the later one winning, as long as
    the first does not write the id. *)
Theorem updates_compose :
  forall (o1 o2 o : Outcome unit) (id : string) (u1 u2 : JsObject) (st : State),
    u1 !! "id"%string = None ->
    fst (handleUpdateModel o2 id u2 (fst (handleUpdateModel o1 id u1 st)))
    = fst (handleUpdateModel o id (u2 ∪ u1) st).
Proof.
  intros o1 o2 o id u1 u2 st Hid.
  assert (H : forall o' u s, fst (handleUpdateModel o' id u s) =
                setModels (fun prev => map (fun m : JsObject =>
                             if propIs m "id" id then u ∪ m else m) prev) s).
  { intros o' u s. unfold handleUpdateModel. destruct o'; reflexivity. }
  rewrite !H. unfold setModels. cbn [folders models currentFolderId selectedModelId
                                      isLoading uploadQueue].
  f_equal. rewrite map_map. apply map_ext. intros m.
  destruct (propIs m "id" id) eqn:Hm.
  - rewrite (propIs_union_None u1 m "id" id Hid), Hm.
    apply (assoc_L (∪)).
  - rewrite Hm. reflexivity.
Qed.

Lemma updates_compose_witness :
  let u1 : JsObject := {[ "name"%string := JsString "cog.stl" ]} in
  let u2 : JsObject := {[ "folderId"%string := JsString "f2" ]} in
  u1 !! "id"%string = None /\
  fst (handleUpdateModel (Resolved tt) "m1" u2
         (fst (handleUpdateModel (RejectedWith OtherThrown) "m1" u1 sampleLibrary)))
  = fst (handleUpdateModel (Resolved tt) "m1" (u2 ∪ u1) sampleLibrary).
Proof.
  cbv zeta.
  assert (H : ({[ "name"%string := JsString "cog.stl" ]} : JsObject) !! "id"%string = None)
    by (vm_compute; reflexivity).
  split; [exact H|].
  exact (updates_compose (RejectedWith OtherThrown) (Resolved tt) (Resolved tt) "m1"
           {[ "name"%string := JsString "cog.stl" ]}
           {[ "folderId"%string := JsString "f2" ]} sampleLibrary H).
Defined.

(** X10.  Deleting a model does not disturb the selection of another
    one: when the model that is selected is not the one deleted, the
    selection and the model shown in the detail panel are the same
    afterwards, however the user and the API answer. *)
Theorem delete_keeps_other_selection :
  forall (confirmed : bool) (deleted : Outcome unit) (id : string) (st : State),
    selectedModelId st <> Some id ->
    let st' := fst (handleDeleteModel st confirmed deleted id st) in
    selectedModelId st' = selectedModelId st /\
    selectedModel st' = selectedModel st.
Proof.
  intros confirmed deleted id st Hsel st'. unfold st', handleDeleteModel.
  destruct confirmed; cbn [negb fst]; [|split; reflexivity].
  destruct deleted as [[]|e]; cbn [fst]; [|split; reflexivity].
  rewrite bool_decide_eq_false_2 by exact Hsel.
  split; [reflexivity|].
  unfold selectedModel. cbn [selectedModelId models setModels].
  apply find_filter_keeps. intros m Hm.
  destruct (propIs m "id" id) eqn:Hid; [|reflexivity].
  exfalso. unfold idMatches in Hm. destruct (selectedModelId st) as [sel|].
  - apply Hsel. f_equal. apply (propIs_inj m "id" sel id Hm Hid).
  - unfold propIs in Hid. apply bool_decide_eq_true in Hm, Hid.
    rewrite Hm in Hid. discriminate Hid.
Qed.

Lemma delete_keeps_other_selection_witness :
  selectedModelId sampleLibrary <> Some "m1"%string /\
  selectedModelId (fst (handleDeleteModel sampleLibrary true (Resolved tt) "m1" sampleLibrary))
    = Some "m2"%string /\
  selectedModel (fst (handleDeleteModel sampleLibrary true (Resolved tt) "m1" sampleLibrary))
    = selectedModel sampleLibrary.
Proof.
  assert (H : selectedModelId sampleLibrary <> Some "m1"%string) by (vm_compute; discriminate).
  split; [exact H|].
  exact (delete_keeps_other_selection true (Resolved tt) "m1" sampleLibrary H).
Defined.

(** X11.  A model that is deleted is gone with every copy of its id,
    the other models stay in their order, and when it was the selected
    one the selection is cleared. *)
Theorem deleted_model_is_gone :
  forall (id : string) (st : State),
    let st' := fst (handleDeleteModel st true (Resolved tt) id st) in
    Forall (fun m => propIs m "id" id = false) (models st') /\
    models st' = List.filter (fun m => negb (propIs m "id" id)) (models st) /\
    (selectedModelId st = Some id -> selectedModelId st' = None) /\
    folders st' = folders st.
Proof.
  intros id st st'. unfold st', handleDeleteModel. cbn [negb fst].
  assert (Hm : forall s : State,
             models (if bool_decide (selectedModelId st = Some id)
                     then setSelectedModelId None s else s) = models s).
  { intros s. destruct (bool_decide _); reflexivity. }
  split; [|split; [|split]].
  - rewrite Hm. cbn [models setModels]. apply Stdlib.Lists.List.Forall_forall.
    intros m Hin. apply filter_In in Hin. destruct Hin as [_ Hin].
    destruct (propIs m "id" id); [discriminate Hin | reflexivity].
  - rewrite Hm. reflexivity.
  - intros Hsel. rewrite bool_decide_eq_true_2 by exact Hsel. reflexivity.
  - destruct (bool_decide _); reflexivity.
Qed.

Lemma deleted_model_is_gone_witness :
  let st' := fst (handleDeleteModel sampleLibrary true (Resolved tt) "m2" sampleLibrary) in
  selectedModelId sampleLibrary = Some "m2"%string /\
  selectedModelId st' = None /\
  models st' = [gear; duck] /\
  Forall (fun m => propIs m "id" "m2" = false) (models st').
Proof.
  cbv zeta.
  destruct (deleted_model_is_gone "m2" sampleLibrary) as (Hgone & Hrest & Hsel & _).
  split; [reflexivity|]. split; [apply Hsel; reflexivity|].
  split; [rewrite Hrest; vm_compute; reflexivity | exact Hgone].
Defined.

(** X12.  The first fetch is all or nothing: the folders and the models
    are replaced only when both requests succeed; when either fails,
    both lists stay as they were, even if the other request brought a
    result, and one error is logged.  Both requests are made in every
    case, the loading flag is off afterwards, and nothing else of the
    state changes. *)
Theorem fetchData_all_or_nothing :
  forall (fetchedFolders fetchedModels : Outcome (list JsObject)) (st : State),
    let st' := fst (fetchData fetchedFolders fetchedModels st) in
    let log := snd (fetchData fetchedFolders fetchedModels st) in
    isLoading st' = false /\
    currentFolderId st' = currentFolderId st /\
    selectedModelId st' = selectedModelId st /\
    uploadQueue st' = uploadQueue st /\
    match fetchedFolders, fetchedModels with
    | Resolved fs, Resolved ms =>
        folders st' = fs /\ models st' = ms /\
        log = [ApiGetFolders; ApiGetModels "all"]
    | _, _ =>
        folders st' = folders st /\ models st' = models st /\
        log = [ApiGetFolders; ApiGetModels "all";
               ConsoleError "Failed to fetch initial data:"]
    end.
Proof.
  intros ff fm st st' log. unfold st', log, fetchData.
  destruct ff as [fs|e]; destruct fm as [ms|e']; cbn; repeat split; reflexivity.
Qed.

(** X13.  The folder that is shown always exists.  Starting from a
    library in which the current folder is "all" or the id of a folder,
    any sequence of actions (creating, renaming and deleting folders,
    selecting a folder that is on offer, updating and deleting models),
    each run to its end and answered in any way by the user and the API,
    ends in such a library. *)
Theorem current_folder_always_exists :
  forall (actions : list Action) (st : State),
    currentFolderExists st ->
    selectsExisting st actions ->
    currentFolderExists (performAll st actions).
Proof.
  induction actions as [|a rest IH]; intros st Hinv Hsel.
  - exact Hinv.
  - rewrite performAll_cons. destruct Hsel as [Ha Hrest].
    apply IH; [|exact Hrest].
    apply perform_currentFolderExists; assumption.
Qed.

Lemma current_folder_always_exists_witness :
  let actions :=
    [SelectFolder "f2";
     CreateFolder (Resolved ({[ "id"%string := JsString "f3" ]} : JsObject)) "New";
     UpdateModel (Resolved tt) "m3" {[ "folderId"%string := JsString "f1" ]};
     DeleteFolder true (Resolved tt) "f2";
     RenameFolder (RejectedWith OtherThrown) "f1" "Spares"] in
  currentFolderExists sampleLibrary /\
  selectsExisting sampleLibrary actions /\
  currentFolderId (performAll sampleLibrary actions) = "all"%string /\
  currentFolderExists (performAll sampleLibrary actions).
Proof.
  cbv zeta.
  assert (H1 : currentFolderExists sampleLibrary).
  { right. left. vm_compute. reflexivity. }
  assert (H2 : selectsExisting sampleLibrary
                 [SelectFolder "f2";
                  CreateFolder (Resolved ({[ "id"%string := JsString "f3" ]} : JsObject)) "New";
                  UpdateModel (Resolved tt) "m3" {[ "folderId"%string := JsString "f1" ]};
                  DeleteFolder true (Resolved tt) "f2";
                  RenameFolder (RejectedWith OtherThrown) "f1" "Spares"]).
  { split; [right; right; left; vm_compute; reflexivity|]. repeat split. }
  split; [exact H1|]. split; [exact H2|]. split; [vm_compute; reflexivity|].
  exact (current_folder_always_exists _ sampleLibrary H1 H2).
Defined.

(** X14.  Moving a model to another folder takes it out of the list
    that is shown and leaves the rest of that list as it is: when a
    folder other than "all" is shown and the update writes a different
    [folderId], the filtered list afterwards is the filtered list before
    without the models of that id. *)
Theorem moved_model_leaves_shown_list :
  forall (updated : Outcome unit) (id folderId : string) (st : State),
    currentFolderId st <> "all"%string ->
    folderId <> currentFolderId st ->
    let st' := fst (handleUpdateModel updated id
                      {[ "folderId"%string := JsString folderId ]} st) in
    filteredModels st' =
    List.filter (fun m => negb (propIs m "id" id)) (filteredModels st).
Proof.
  intros updated id folderId st Hall Hne st'.
  assert (Hst : st' = setModels
                  (fun prev => map (fun m : JsObject =>
                     if propIs m "id" id
                     then {[ "folderId"%string := JsString folderId ]} ∪ m else m) prev) st).
  { unfold st', handleUpdateModel. destruct updated; reflexivity. }
  rewrite Hst. unfold filteredModels. cbn [currentFolderId models setModels].
  destruct (String.eqb_spec (currentFolderId st) "all") as [Heq|_];
    [destruct (Hall Heq)|].
  apply (filter_map_split
           (fun m => propIs m "folderId" (currentFolderId st))
           (fun m => propIs m "id" id)).
  - intros m Hm. rewrite Hm.
    rewrite (propIs_union_Some _ m "folderId" (currentFolderId st) (JsString folderId))
      by apply lookup_singleton_eq.
    apply bool_decide_eq_false_2. congruence.
  - intros m Hm. rewrite Hm. reflexivity.
Qed.

Lemma moved_model_leaves_shown_list_witness :
  currentFolderId sampleLibrary <> "all"%string /\
  "f2"%string <> currentFolderId sampleLibrary /\
  filteredModels sampleLibrary = [gear; bracket] /\
  filteredModels (fst (handleUpdateModel (Resolved tt) "m1"
                         {[ "folderId"%string := JsString "f2" ]} sampleLibrary))
  = List.filter (fun m => negb (propIs m "id" "m1")) (filteredModels sampleLibrary).
Proof.
  assert (H1 : currentFolderId sampleLibrary <> "all"%string) by (vm_compute; discriminate).
  assert (H2 : "f2"%string <> currentFolderId sampleLibrary) by (vm_compute; discriminate).
  split; [exact H1|]. split; [exact H2|]. split; [vm_compute; reflexivity|].
  exact (moved_model_leaves_shown_list (Resolved tt) "m1" "f2" sampleLibrary H1 H2).
Defined.

(** X15.  The detail panel follows an update: when the update does not
    write the id, the model shown afterwards is the model shown before
    with the update applied to it if it has the id, and the very same
    model otherwise; nothing is shown afterwards exactly when nothing was
    shown before. *)
Theorem selected_model_follows_update :
  forall (updated : Outcome unit) (id : string) (updates : JsObject) (st : State),
    updates !! "id"%string = None ->
    selectedModel (fst (handleUpdateModel updated id updates st))
    = option_map (fun m : JsObject => if propIs m "id" id then updates ∪ m else m)
                 (selectedModel st).
Proof.
  intros updated id updates st Hid.
  assert (Hst : fst (handleUpdateModel updated id updates st) = setModels
                  (fun prev => map (fun m : JsObject =>
                     if propIs m "id" id then updates ∪ m else m) prev) st).
  { unfold handleUpdateModel. destruct updated; reflexivity. }
  rewrite Hst. unfold selectedModel. cbn [selectedModelId models setModels].
  apply find_map_invariant. intros m.
  destruct (propIs m "id" id); [|reflexivity].
  unfold idMatches. destruct (selectedModelId st) as [sel|].
  - apply propIs_union_None, Hid.
  - rewrite lookup_union_r by exact Hid. reflexivity.
Qed.

Lemma selected_model_follows_update_witness :
  let updates : JsObject := {[ "name"%string := JsString "angle.stl" ]} in
  updates !! "id"%string = None /\
  selectedModel sampleLibrary = Some bracket /\
  selectedModel (fst (handleUpdateModel (RejectedWith OtherThrown) "m2" updates sampleLibrary))
  = option_map (fun m : JsObject => if propIs m "id" "m2" then updates ∪ m else m)
               (selectedModel sampleLibrary).
Proof.
  cbv zeta.
  assert (H : ({[ "name"%string := JsString "angle.stl" ]} : JsObject) !! "id"%string = None)
    by (vm_compute; reflexivity).
  split; [exact H|]. split; [vm_compute; reflexivity|].
  exact (selected_model_follows_update (RejectedWith OtherThrown) "m2"
           {[ "name"%string := JsString "angle.stl" ]} sampleLibrary H).
Defined.

End LibraryProperties.

(* ===================================================================== *)
(** * More about runs of the viewer                                       *)
(* ===================================================================== *)

Section ViewerRunFacts.

Import Geometry Viewer ViewerLog.

Variable vertexNormals : list Vector3 -> list Vector3.

Abbreviation step := (Viewer.step vertexNormals).
Abbreviation next := (Viewer.next vertexNormals).
Abbreviation finalState := (Viewer.finalState vertexNormals).
Abbreviation callsOf := (Viewer.callsOf vertexNormals).

(** What one render can come to, case by case. *)
Lemma Viewer3D_cases (p : Props) (o : Outcome) (s : Session) :
  let u := default EmptyString (url p) in
  let s1 := setBoundary (Some (default ErrorBoundary_constructor (boundary s))) s in
  Viewer3D vertexNormals p o s = (unmountCanvas s, NoModelSelected, []) \/
  Viewer3D vertexNormals p o s = (unmountCanvas s, ErrorLoadingModel, []) \/
  Viewer3D vertexNormals p o s = (setEffectDeps None s1, Canvas Nothing, []) \/
  (o = Suspends /\
   Viewer3D vertexNormals p o s = (setEffectDeps None s1, Canvas LoadingFallback, [UseLoader u])) \/
  (o = Throws /\
   Viewer3D vertexNormals p o s =
     (setError true (setBoundary (Some getDerivedStateFromError) (setEffectDeps None s1)),
      Canvas Nothing, [UseLoader u; ConsoleError; OnError])) \/
  (exists r, o = Returns r /\ noUrl (url p) = false /\
     Viewer3D vertexNormals p o s = (s1, Canvas (Mesh r), [UseLoader u])) \/
  (exists r, o = Returns r /\ noUrl (url p) = false /\ heap s !! r = None /\
     Viewer3D vertexNormals p o s =
       (setEffectDeps (Some (r, onLoaded p)) s1, Canvas (Mesh r), [UseLoader u])) \/
  (exists r g, o = Returns r /\ noUrl (url p) = false /\ heap s !! r = Some g /\
     Viewer3D vertexNormals p o s =
       (setEffectDeps (Some (r, onLoaded p))
          (setHeap (<[r := fst (normalize vertexNormals (onLoaded p) g)]> (heap s)) s1),
        Canvas (Mesh r),
        UseLoader u :: map InEffect (snd (normalize vertexNormals (onLoaded p) g)))).
Proof.
  cbv zeta. unfold Viewer3D.
  destruct (noUrl (url p)) eqn:Hu; [left; reflexivity|].
  destruct (error (viewer s)); [right; left; reflexivity|].
  unfold ErrorBoundary.
  destruct (ErrorBoundary_render (default ErrorBoundary_constructor (boundary s)));
    [|right; right; left; reflexivity].
  destruct o as [| |r]; cbn [Model].
  - right; right; right; left. split; reflexivity.
  - right; right; right; right; left. split; reflexivity.
  - cbn [effectDeps setBoundary heap].
    destruct (bool_decide (effectDeps s = Some (r, onLoaded p))).
    + right; right; right; right; right; left. exists r. repeat split; reflexivity.
    + unfold runLayoutEffect. destruct (heap s !! r) as [g|] eqn:Hg.
      * do 7 right. exists r, g. rewrite (normalize_pair vertexNormals (onLoaded p) g).
        repeat split; first [reflexivity | exact Hg].
      * do 6 right; left. exists r. repeat split; first [reflexivity | exact Hg].
Qed.

Lemma callsOf_append (a b : list Input) :
  forall s, callsOf s (a ++ b) = callsOf s a ++ callsOf (finalState s a) b.
Proof.
  induction a as [|i a IH]; intros s.
  - reflexivity.
  - rewrite <- app_comm_cons, !callsOf_cons, finalState_cons, IH.
    apply app_assoc.
Qed.

(** A render never touches the fullscreen flag. *)
Lemma isFullscreen_render (p : Props) (o : Outcome) (s : Session) :
  isFullscreen (viewer (next s (Render p o))) = isFullscreen (viewer s).
Proof.
  unfold Viewer.next. cbn [Viewer.step].
  destruct (Viewer3D_cases p o s)
    as [H|[H|[H|[[_ H]|[[_ H]|[(r & _ & _ & H)|[(r & _ & _ & _ & H)|(r & g & _ & _ & _ & H)]]]]]]];
    rewrite H; reflexivity.
Qed.

(** The heap after one input: as before, or with the returned geometry
    normalized in place. *)
Lemma heap_next (s : Session) (i : Input) :
  heap (next s i) = heap s \/
  exists p r g,
    i = Render p (Returns r) /\ heap s !! r = Some g /\
    heap (next s i) = <[r := fst (normalize vertexNormals (onLoaded p) g)]> (heap s).
Proof.
  unfold Viewer.next. destruct i as [p o|on]; cbn [Viewer.step]; [|left; reflexivity].
  destruct (Viewer3D_cases p o s)
    as [H|[H|[H|[[_ H]|[[_ H]|[(r & _ & _ & H)|[(r & _ & _ & _ & H)|(r & g & Ho & _ & Hg & H)]]]]]]];
    rewrite H; try (left; reflexivity).
  right. exists p, r, g. subst o. repeat split; first [reflexivity | exact Hg].
Qed.

(** The heap over a run: a geometry no render returns is untouched, and
    the geometries there are stay the geometries there are. *)
Lemma heap_run (inputs : list Input) :
  forall (s : Session) (r : GRef),
    (Forall (fun i => ~ returnsGeometry r i) inputs ->
     heap (finalState s inputs) !! r = heap s !! r) /\
    (is_Some (heap (finalState s inputs) !! r) <-> is_Some (heap s !! r)).
Proof.
  induction inputs as [|i rest IH]; intros s r.
  - split; [reflexivity|]. reflexivity.
  - rewrite finalState_cons. destruct (IH (next s i) r) as [IH1 IH2].
    destruct (heap_next s i) as [H|(p & r' & g & Hi & Hg & H)].
    + rewrite H in IH1, IH2. split; [|exact IH2].
      intros Hall. apply IH1. inversion Hall; assumption.
    + split.
      * intros Hall. inversion Hall as [|? ? Hnot Hrest]; subst.
        rewrite (IH1 Hrest), H. apply lookup_insert_ne.
        intros ->. apply Hnot. reflexivity.
      * rewrite IH2, H. destruct (decide (r' = r)) as [->|Hne].
        -- rewrite lookup_insert_eq, Hg. split; intros _; eexists; reflexivity.
        -- rewrite lookup_insert_ne by exact Hne. reflexivity.
Qed.

(** One input calls [onLoaded] at most once, and only in a render that
    can report. *)
Lemma step_onLoaded_bound (s : Session) (i : Input) :
  (countCalls isOnLoaded (snd (step s i)) <= if canReport i then 1 else 0)%nat.
Proof.
  destruct i as [p o|on]; cbn [Viewer.step]; [|vm_compute; lia].
  destruct (Viewer3D_cases p o s)
    as [H|[H|[H|[[_ H]|[[_ H]|[(r & _ & _ & H)|[(r & _ & _ & _ & H)|(r & g & Ho & Hu & Hg & H)]]]]]]];
    rewrite H; cbn [snd];
    try (assert (forall n : nat, (0 <= n)%nat) by (intros; lia);
         unfold countCalls; cbn; auto; fail).
  subst o. unfold canReport. rewrite Hu.
  change (UseLoader (default EmptyString (url p))
            :: map InEffect (snd (normalize vertexNormals (onLoaded p) g)))
    with ([UseLoader (default EmptyString (url p))]
            ++ map InEffect (snd (normalize vertexNormals (onLoaded p) g))).
  rewrite countCalls_app, countCalls_onLoaded_effect.
  destruct (onLoaded p); unfold countCalls; cbn;
    (case_decide; [discriminate | simpl; lia]).
Qed.

End ViewerRunFacts.

(* ===================================================================== *)
(** * Further properties of the viewer                                    *)
(* ===================================================================== *)

Section ViewerProperties.

Import Geometry Viewer ViewerLog.

(** X16.  The fullscreen flag of a viewer is the flag of the last
    fullscreen change the document reported, or what it was when there
    was none: no render, load, error or change of URL touches it. *)
Theorem fullscreen_flag_follows_document :
  forall (vertexNormals : list Vector3 -> list Vector3)
         (inputs : list Input) (s : Session),
    isFullscreen (viewer (finalState vertexNormals s inputs))
    = lastFullscreen (isFullscreen (viewer s)) inputs.
Proof.
  intros vn inputs. induction inputs as [|i rest IH]; intros s.
  - reflexivity.
  - rewrite finalState_cons, IH. unfold lastFullscreen. cbn [fold_left].
    destruct i as [p o|on]; [rewrite isFullscreen_render|]; reflexivity.
Qed.

(** X17.  The viewer changes no geometry but the ones the loader
    returned to it: a geometry that no render of the run returns is the
    same object with the same content at the end, and no geometry is ever
    added or dropped. *)
Theorem only_returned_geometry_is_touched :
  forall (vertexNormals : list Vector3 -> list Vector3)
         (inputs : list Input) (s : Session) (r : GRef),
    Forall (fun i => ~ returnsGeometry r i) inputs ->
    heap (finalState vertexNormals s inputs) !! r = heap s !! r /\
    forall r', is_Some (heap (finalState vertexNormals s inputs) !! r')
               <-> is_Some (heap s !! r').
Proof.
  intros vn inputs s r Hall. split.
  - apply (heap_run vn inputs s r), Hall.
  - intros r'. apply (heap_run vn inputs s r').
Qed.

Lemma only_returned_geometry_is_touched_witness :
  let h : gmap nat BufferGeometry := {[ 0%nat := unitTriangle; 1%nat := emptyGeometry ]} in
  let p := mkProps (Some "cube.stl"%string) (Some 7%nat) in
  let inputs := [Render p Suspends; Render p (Returns 0%nat); FullscreenChange true;
                 Render p Throws] in
  Forall (fun i => ~ returnsGeometry 1%nat i) inputs /\
  heap (finalState (fun ps => ps) (mount h) inputs) !! 1%nat = Some emptyGeometry.
Proof.
  cbv zeta.
  assert (H : Forall (fun i => ~ returnsGeometry 1%nat i)
                [Render (mkProps (Some "cube.stl"%string) (Some 7%nat)) Suspends;
                 Render (mkProps (Some "cube.stl"%string) (Some 7%nat)) (Returns 0%nat);
                 FullscreenChange true;
                 Render (mkProps (Some "cube.stl"%string) (Some 7%nat)) Throws]).
  { constructor; [intros []|]. constructor; [simpl; discriminate|].
    constructor; [intros []|]. constructor; [intros []|]. constructor. }
  split; [exact H|].
  destruct (only_returned_geometry_is_touched (fun ps => ps) _
              (mount {[ 0%nat := unitTriangle; 1%nat := emptyGeometry ]}) 1%nat H)
    as [Heq _].
  exact (eq_trans Heq eq_refl).
Defined.

(** X18.  [onLoaded] is never called more often than the viewer is
    rendered with a URL, a callback and a geometry from the loader: not
    while the loader is pending, not when [Model] throws, not without a
    URL, and not after an error. *)
Theorem onLoaded_only_when_loaded :
  forall (vertexNormals : list Vector3 -> list Vector3)
         (inputs : list Input) (s : Session),
    (countCalls isOnLoaded (callsOf vertexNormals s inputs)
     <= length (List.filter canReport inputs))%nat.
Proof.
  intros vn inputs. induction inputs as [|i rest IH]; intros s.
  - reflexivity.
  - rewrite callsOf_cons, countCalls_app. cbn [List.filter].
    pose proof (step_onLoaded_bound vn s i) as Hi.
    pose proof (IH (Viewer.next vn s i)) as Hrest.
    destruct (canReport i); cbn [length]; lia.
Qed.

(** X19.  Running the layout effect again on a geometry it has already
    normalized, as a new [onLoaded] function makes it do, moves no
    vertex and reports the same size again. *)
Theorem effect_rerun_changes_nothing :
  forall (vertexNormals : list Vector3 -> list Vector3)
         (cb1 cb2 : Callback) (g : BufferGeometry),
    let g1 := fst (normalize vertexNormals (Some cb1) g) in
    let g2 := fst (normalize vertexNormals (Some cb2) g1) in
    Forall2 veq (position g2) (position g1) /\
    exists size1 size2,
      reportedSize (snd (normalize vertexNormals (Some cb1) g)) = Some size1 /\
      reportedSize (snd (normalize vertexNormals (Some cb2) g1)) = Some size2 /\
      veq size2 size1.
Proof.
  intros vn cb1 cb2 g g1 g2. unfold g2, g1. rewrite !normalize_unfold. cbn [fst snd].
  split.
  - apply (centered_twice (setNormals vn g)).
  - eexists _, _. split; [reflexivity|]. split; [reflexivity|].
    apply (reported_size_unchanged (withBoundingBox (centered (setNormals vn g)))).
Qed.

End ViewerProperties.

Section NextLoad.

Import Geometry Viewer ViewerLog.

Variable vertexNormals : list Vector3 -> list Vector3.
Variable p : Props.
Variable r : GRef.
Hypothesis Hurl : noUrl (url p) = false.

Abbreviation next := (Viewer.next vertexNormals).
Abbreviation step := (Viewer.step vertexNormals).
Abbreviation finalState := (Viewer.finalState vertexNormals).
Abbreviation callsOf := (Viewer.callsOf vertexNormals).

(** The effect last ran with other dependencies, or not at all: the
    next render in which the loader returns the geometry runs it. *)
Lemma step_changed (s : Session) (g : BufferGeometry) :
  error (viewer s) = false ->
  consistent s ->
  effectDeps s <> Some (r, onLoaded p) ->
  heap s !! r = Some g ->
  let i := Render p (Returns r) in
  error (viewer (next s i)) = false /\
  consistent (next s i) /\
  effectDeps (next s i) = Some (r, onLoaded p) /\
  countCalls isOnLoaded (snd (step s i)) = match onLoaded p with Some _ => 1%nat | None => 0%nat end.
Proof.
  intros He Hc Hd Hg. unfold Viewer.next. cbn [Viewer.step].
  rewrite (Viewer3D_live vertexNormals p (Returns r) s Hurl He Hc).
  unfold Model. cbn [effectDeps setBoundary heap].
  rewrite bool_decide_eq_false_2 by exact Hd.
  unfold runLayoutEffect. rewrite Hg.
  rewrite (normalize_pair vertexNormals (onLoaded p) g). cbn.
  repeat split; auto.
  - intros H; discriminate H.
  - apply (countCalls_onLoaded_effect vertexNormals (onLoaded p) g).
Qed.

(** Fullscreen changes in between leave everything the effect depends
    on as it is. *)
Lemma run_changed (inputs : list Input) :
  forall s g,
    error (viewer s) = false ->
    consistent s ->
    effectDeps s <> Some (r, onLoaded p) ->
    heap s !! r = Some g ->
    Forall (sameLoad p r) inputs ->
    In (Render p (Returns r)) inputs ->
    error (viewer (finalState s inputs)) = false /\
    consistent (finalState s inputs) /\
    effectDeps (finalState s inputs) = Some (r, onLoaded p) /\
    countCalls isOnLoaded (callsOf s inputs)
      = match onLoaded p with Some _ => 1%nat | None => 0%nat end.
Proof.
  induction inputs as [|i rest IH]; intros s g He Hc Hd Hg Hall Hin.
  - destruct Hin.
  - inversion Hall as [|? ? Hi Hrest]; subst.
    rewrite finalState_cons, callsOf_cons, countCalls_app.
    destruct i as [p' o|on].
    + destruct Hi as [-> ->].
      destruct (step_changed s g He Hc Hd Hg) as (He' & Hc' & Hd' & Hn).
      rewrite Hn. clear IH Hin.
      revert He' Hc' Hd'. generalize (next s (Render p (Returns r))). intros s1 He' Hc' Hd'.
      assert (Hst : error (viewer (finalState s1 rest)) = false /\
                    consistent (finalState s1 rest) /\
                    effectDeps (finalState s1 rest) = Some (r, onLoaded p)).
      { clear Hall. revert s1 He' Hc' Hd'.
        induction rest as [|j rest IHr]; intros s1 He' Hc' Hd'.
        - auto.
        - inversion Hrest as [|? ? Hj Hrest']; subst. rewrite finalState_cons.
          destruct (step_stable vertexNormals p r Hurl s1 j He' Hc' Hd' Hj)
            as (He2 & Hc2 & Hd2 & _).
          apply IHr; assumption. }
      destruct Hst as (H1 & H2 & H3).
      rewrite (run_stable vertexNormals p r Hurl rest s1 He' Hc' Hd' Hrest).
      repeat split; auto; lia.
    + destruct Hin as [Hin|Hin]; [discriminate Hin|].
      cbn [Viewer.step snd]. change (countCalls isOnLoaded []) with 0%nat.
      apply (IH (next s (FullscreenChange on)) g); auto.
Qed.

(** While the loader is pending nothing is reported, the viewer stays
    without error, and the effect has not run with the dependencies to
    come. *)
Lemma run_pending (inputs : list Input) :
  forall s,
    error (viewer s) = false ->
    consistent s ->
    effectDeps s <> Some (r, onLoaded p) ->
    Forall (pendingLoad p) inputs ->
    error (viewer (finalState s inputs)) = false /\
    consistent (finalState s inputs) /\
    effectDeps (finalState s inputs) <> Some (r, onLoaded p) /\
    heap (finalState s inputs) = heap s /\
    countCalls isOnLoaded (callsOf s inputs) = 0%nat.
Proof.
  induction inputs as [|i rest IH]; intros s He Hc Hd Hall.
  - repeat split; auto.
  - inversion Hall as [|? ? Hi Hrest]; subst.
    rewrite finalState_cons, callsOf_cons, countCalls_app.
    assert (Hstep : error (viewer (next s i)) = false /\ consistent (next s i) /\
                    effectDeps (next s i) <> Some (r, onLoaded p) /\
                    heap (next s i) = heap s /\
                    countCalls isOnLoaded (snd (step s i)) = 0%nat).
    { unfold Viewer.next. destruct i as [p' o|on]; cbn [Viewer.step].
      - destruct Hi as [-> ->].
        rewrite (Viewer3D_live vertexNormals p Suspends s Hurl He Hc). cbn.
        repeat split; auto; discriminate.
      - repeat split; auto. }
    destruct Hstep as (He' & Hc' & Hd' & Hh' & Hn').
    destruct (IH (next s i) He' Hc' Hd' Hrest) as (H1 & H2 & H3 & H4 & H5).
    rewrite Hn', H5, H4, Hh'. repeat split; auto.
Qed.

End NextLoad.

Section OneLoadFromTheStart.

Import Geometry Viewer ViewerLog.

(** C3, as the code has it.  For every successful load, the first of a
    viewer or a later one: whatever the viewer did before, when it is
    not in error and the effect has not yet run for this geometry and
    this callback, then from the renders in which the loader is still
    pending, through the render in which it returns the geometry, and
    over every later render with the same props (the same [onLoaded]
    function object among them) and the same geometry object, with
    fullscreen changes anywhere in between, [onLoaded] is called exactly
    once.  (A render that passes a new [onLoaded] function object makes
    the effect run, and report, again.) *)
Theorem onLoaded_once_while_dependencies_unchanged :
  forall (vertexNormals : list Vector3 -> list Vector3)
         (h : gmap nat BufferGeometry) (before : list Input)
         (r : GRef) (g : BufferGeometry)
         (p : Props) (cb : Callback) (pending inputs : list Input),
    error (viewer (finalState vertexNormals (mount h) before)) = false ->
    effectDeps (finalState vertexNormals (mount h) before) <> Some (r, Some cb) ->
    heap (finalState vertexNormals (mount h) before) !! r = Some g ->
    noUrl (url p) = false ->
    onLoaded p = Some cb ->
    Forall (pendingLoad p) pending ->
    Forall (sameLoad p r) inputs ->
    In (Render p (Returns r)) inputs ->
    countCalls isOnLoaded
      (callsOf vertexNormals (finalState vertexNormals (mount h) before)
         (pending ++ inputs)) = 1%nat.
Proof.
  intros vn h before r g p cb pending inputs He0 Hd0 Hg Hu Hcb Hpend Hall Hin.
  set (s := Viewer.finalState vn (mount h) before) in *.
  assert (Hc0 : consistent s) by apply consistent_finalState, consistent_mount.
  rewrite <- Hcb in Hd0.
  rewrite callsOf_append, countCalls_app.
  destruct (run_pending vn p r Hu pending s He0 Hc0 Hd0 Hpend)
    as (He & Hc & Hd & Hh & Hn).
  assert (Hg' : heap (Viewer.finalState vn s pending) !! r = Some g).
  { rewrite Hh. exact Hg. }
  destruct (run_changed vn p r Hu inputs _ g He Hc Hd Hg' Hall Hin) as (_ & _ & _ & Hn').
  rewrite Hn, Hn', Hcb. reflexivity.
Qed.

Lemma onLoaded_once_while_dependencies_unchanged_witness :
  let p := mkProps (Some "cube.stl"%string) (Some 7%nat) in
  let h : gmap nat BufferGeometry := {[ 0%nat := unitTriangle ]} in
  let before : list Input := [] in
  let pending := [Render p Suspends; FullscreenChange false; Render p Suspends] in
  let inputs := [Render p (Returns 0%nat); FullscreenChange true; Render p (Returns 0%nat)] in
  error (viewer (finalState (fun ps => ps) (mount h) before)) = false /\
  effectDeps (finalState (fun ps => ps) (mount h) before) <> Some (0%nat, Some 7%nat) /\
  heap (finalState (fun ps => ps) (mount h) before) !! 0%nat = Some unitTriangle /\
  noUrl (url p) = false /\
  onLoaded p = Some 7%nat /\
  Forall (pendingLoad p) pending /\
  Forall (sameLoad p 0%nat) inputs /\
  In (Render p (Returns 0%nat)) inputs /\
  countCalls isOnLoaded
    (callsOf (fun ps => ps) (finalState (fun ps => ps) (mount h) before)
       (pending ++ inputs)) = 1%nat.
Proof.
  cbv zeta.
  assert (Hpend : Forall (pendingLoad (mkProps (Some "cube.stl"%string) (Some 7%nat)))
                    [Render (mkProps (Some "cube.stl"%string) (Some 7%nat)) Suspends;
                     FullscreenChange false;
                     Render (mkProps (Some "cube.stl"%string) (Some 7%nat)) Suspends])
    by (repeat constructor).
  assert (Hall : Forall (sameLoad (mkProps (Some "cube.stl"%string) (Some 7%nat)) 0%nat)
                   [Render (mkProps (Some "cube.stl"%string) (Some 7%nat)) (Returns 0%nat);
                    FullscreenChange true;
                    Render (mkProps (Some "cube.stl"%string) (Some 7%nat)) (Returns 0%nat)])
    by (repeat constructor).
  split; [reflexivity|]. split; [discriminate|]. split; [reflexivity|].
  split; [reflexivity|]. split; [reflexivity|].
  split; [exact Hpend|]. split; [exact Hall|]. split; [left; reflexivity|].
  apply (onLoaded_once_while_dependencies_unchanged (fun ps => ps)
           {[ 0%nat := unitTriangle ]} [] 0%nat unitTriangle
           (mkProps (Some "cube.stl"%string) (Some 7%nat)) 7%nat);
    first [ reflexivity | discriminate | exact Hpend | exact Hall | left; reflexivity ].
Defined.

End OneLoadFromTheStart.

Section ViewerFaults.

Import Geometry Viewer.

(** X22.  If in some render of a mounted viewer [Model] throws, then over
    the whole life of the viewer, whatever was rendered before and
    whatever is rendered afterwards (the fault may recur in every later
    render), the viewer enters the error state exactly once and
    [onError] is called exactly once. *)
Theorem onError_exactly_once :
  forall (vertexNormals : list Vector3 -> list Vector3)
         (h : gmap nat BufferGeometry) (before after : list Input) (p : Props),
    noUrl (url p) = false ->
    let inputs := before ++ Render p Throws :: after in
    countCalls isOnError (callsOf vertexNormals (mount h) inputs) = 1%nat /\
    errorTransitions vertexNormals (mount h) inputs = 1%nat.
Proof.
  intros vn h before after p Hu inputs.
  assert (Hfinal : error (viewer (finalState vn (mount h) inputs)) = true).
  { unfold inputs. rewrite finalState_app, finalState_cons.
    apply run_in_error. apply throw_sets_error; [|exact Hu].
    apply consistent_finalState, consistent_mount. }
  pose proof (run_onError_count vn inputs (mount h) eq_refl (consistent_mount h)) as H.
  cbv zeta in H. rewrite Hfinal in H. exact H.
Qed.

Lemma onError_exactly_once_witness :
  let p := mkProps (Some "broken.stl"%string) None in
  noUrl (url p) = false /\
  let inputs := [Render p Suspends] ++ Render p Throws :: [Render p Throws; Render p Throws] in
  countCalls isOnError (callsOf (fun ps => ps) (mount ∅) inputs) = 1%nat /\
  errorTransitions (fun ps => ps) (mount ∅) inputs = 1%nat.
Proof.
  cbv zeta. split; [reflexivity|].
  apply (onError_exactly_once (fun ps => ps) ∅ [Render _ Suspends]
           [Render _ Throws; Render _ Throws]
           (mkProps (Some "broken.stl"%string) None)).
  reflexivity.
Defined.

End ViewerFaults.

Section ViewerLoads.

Import Geometry Viewer ViewerLog.

(** X21.  A viewer that is given another model reports once more: when
    the renders of one load (same props, same geometry object) are
    followed, after any renders in which the loader is pending for the
    new props, by the renders of another load whose geometry object or
    [onLoaded] function is a different one, [onLoaded] is called exactly
    twice over the run, once for each load. *)
Theorem next_load_reports_once_more :
  forall (vertexNormals : list Vector3 -> list Vector3)
         (h : gmap nat BufferGeometry)
         (p1 p2 : Props) (r1 r2 : GRef) (g1 g2 : BufferGeometry)
         (cb1 cb2 : Callback) (first pending second : list Input),
    h !! r1 = Some g1 ->
    h !! r2 = Some g2 ->
    noUrl (url p1) = false ->
    noUrl (url p2) = false ->
    onLoaded p1 = Some cb1 ->
    onLoaded p2 = Some cb2 ->
    (r1, cb1) <> (r2, cb2) ->
    Forall (sameLoad p1 r1) first ->
    In (Render p1 (Returns r1)) first ->
    Forall (pendingLoad p2) pending ->
    Forall (sameLoad p2 r2) second ->
    In (Render p2 (Returns r2)) second ->
    countCalls isOnLoaded
      (callsOf vertexNormals (mount h) (first ++ pending ++ second)) = 2%nat.
Proof.
  intros vn h p1 p2 r1 r2 g1 g2 cb1 cb2 first pending second
         Hg1 Hg2 Hu1 Hu2 Hcb1 Hcb2 Hne Hall1 Hin1 Hpend Hall2 Hin2.
  rewrite !callsOf_append, !countCalls_app.
  assert (Hd0 : effectDeps (mount h) <> Some (r1, onLoaded p1)) by (cbn; discriminate).
  destruct (run_changed vn p1 r1 Hu1 first (mount h) g1 eq_refl (consistent_mount h)
              Hd0 Hg1 Hall1 Hin1)
    as (He & Hc & Hd & Hn).
  set (s1 := Viewer.finalState vn (mount h) first) in *.
  assert (Hd1 : effectDeps s1 <> Some (r2, onLoaded p2)).
  { rewrite Hd, Hcb1, Hcb2. intros H. inversion H. apply Hne. congruence. }
  destruct (run_pending vn p2 r2 Hu2 pending s1 He Hc Hd1 Hpend)
    as (He2 & Hc2 & Hd2 & Hh2 & Hn2).
  assert (Hsome : is_Some (heap s1 !! r2)).
  { apply (heap_run vn first (mount h) r2). exists g2. exact Hg2. }
  destruct Hsome as [g2' Hg2'].
  rewrite <- Hh2 in Hg2'.
  destruct (run_changed vn p2 r2 Hu2 second _ g2' He2 Hc2 Hd2 Hg2' Hall2 Hin2)
    as (_ & _ & _ & Hn3).
  rewrite Hn, Hn2, Hn3, Hcb1, Hcb2. reflexivity.
Qed.

Lemma next_load_reports_once_more_witness :
  let h : gmap nat BufferGeometry := {[ 0%nat := unitTriangle; 1%nat := centredTriangle ]} in
  let p1 := mkProps (Some "cube.stl"%string) (Some 7%nat) in
  let p2 := mkProps (Some "duck.stl"%string) (Some 7%nat) in
  let first := [Render p1 (Returns 0%nat); FullscreenChange true] in
  let pending := [Render p2 Suspends] in
  let second := [Render p2 (Returns 1%nat); Render p2 (Returns 1%nat)] in
  h !! 0%nat = Some unitTriangle /\
  h !! 1%nat = Some centredTriangle /\
  (0%nat, 7%nat) <> (1%nat, 7%nat) /\
  Forall (sameLoad p1 0%nat) first /\
  Forall (pendingLoad p2) pending /\
  Forall (sameLoad p2 1%nat) second /\
  countCalls isOnLoaded
    (callsOf (fun ps => ps) (mount h) (first ++ pending ++ second)) = 2%nat.
Proof.
  cbv zeta.
  assert (H1 : Forall (sameLoad (mkProps (Some "cube.stl"%string) (Some 7%nat)) 0%nat)
                 [Render (mkProps (Some "cube.stl"%string) (Some 7%nat)) (Returns 0%nat);
                  FullscreenChange true]) by (repeat constructor).
  assert (H2 : Forall (pendingLoad (mkProps (Some "duck.stl"%string) (Some 7%nat)))
                 [Render (mkProps (Some "duck.stl"%string) (Some 7%nat)) Suspends])
    by (repeat constructor).
  assert (H3 : Forall (sameLoad (mkProps (Some "duck.stl"%string) (Some 7%nat)) 1%nat)
                 [Render (mkProps (Some "duck.stl"%string) (Some 7%nat)) (Returns 1%nat);
                  Render (mkProps (Some "duck.stl"%string) (Some 7%nat)) (Returns 1%nat)])
    by (repeat constructor).
  assert (Hne : (0%nat, 7%nat) <> (1%nat, 7%nat)) by discriminate.
  split; [reflexivity|]. split; [reflexivity|]. split; [exact Hne|].
  split; [exact H1|]. split; [exact H2|]. split; [exact H3|].
  apply (next_load_reports_once_more (fun ps => ps)
           {[ 0%nat := unitTriangle; 1%nat := centredTriangle ]}
           (mkProps (Some "cube.stl"%string) (Some 7%nat))
           (mkProps (Some "duck.stl"%string) (Some 7%nat))
           0%nat 1%nat unitTriangle centredTriangle 7%nat 7%nat);
    first [ reflexivity | exact Hne | exact H1 | exact H2 | exact H3
          | left; reflexivity ].
Defined.

End ViewerLoads.
